(** * Davis console protocol client: CRC, packed dates, serial exchanges

    A shallow embedding of [communication/davis.py] and
    [communication/serial_comm.py].  Python integers are [Z], the elements of
    [bytes] and of [array.array('B')] are [Byte.byte], an operation that may
    raise returns a [result], and the operations that talk to the serial port
    thread a [port] through a small state-and-exception monad.

    Python floats are the primitive binary64 floats; [math.exp], which
    belongs to the C library, is a parameter of the archive decoder.

    The logger handed to [DavisCommunicator] is write-only: no returned value
    and no byte on the wire depends on it, so calls to it are left out. *)

From Stdlib Require Import ZArith List Bool Lia.
From Stdlib Require Import Strings.Byte Strings.String.
From Stdlib Require Import Floats.PrimFloat Numbers.Cyclic.Int63.Uint63.
Import ListNotations.
Local Open Scope Z_scope.

(** ** Exceptions and results *)

Inductive exn : Type :=
| StructError        (* struct.error *)
| ValueError
| IndexError
| TypeError
| AttributeError
| ZeroDivisionError.

Inductive result (A : Type) : Type :=
| Ok (a : A)
| Raise (e : exn).
Arguments Ok {A} a.
Arguments Raise {A} e.

Definition rbind {A B} (r : result A) (k : A -> result B) : result B :=
  match r with
  | Ok a => k a
  | Raise e => Raise e
  end.

Declare Scope result_scope.
Delimit Scope result_scope with res.
Notation "x <- c ;; k" := (rbind c (fun x => k))
  (at level 61, c at next level, right associativity) : result_scope.
Local Open Scope result_scope.

(** ** Bytes *)

Definition byte_val (b : byte) : Z := Z.of_N (Byte.to_N b).

(** The byte whose value is [z mod 256]. *)
Definition byte_of_Z (z : Z) : byte :=
  match Byte.of_N (Z.to_N (z mod 256)) with
  | Some b => b
  | None => x00
  end.

(** Python's [l[i]] on a list: a negative index counts from the end, an index
    outside the list raises IndexError. *)
Definition list_index {A} (l : list A) (i : Z) : result A :=
  let n := Z.of_nat (List.length l) in
  let j := if i <? 0 then i + n else i in
  if (0 <=? j) && (j <? n) then
    match nth_error l (Z.to_nat j) with
    | Some a => Ok a
    | None => Raise IndexError
    end
  else Raise IndexError.

(** [struct.pack('>H', v)]: two bytes, most significant first; struct.error
    unless [0 <= v <= 65535]. *)
Definition struct_pack_BE_H (v : Z) : result (list byte) :=
  if (0 <=? v) && (v <=? 0xffff) then
    Ok [byte_of_Z (Z.shiftr v 8); byte_of_Z (Z.land v 0xff)]
  else Raise StructError.

(** [struct.unpack_from('>H', buf)[0]]: the first two bytes, big-endian;
    struct.error when the buffer holds fewer than two. *)
Definition struct_unpack_from_BE_H (buf : list byte) : result Z :=
  match buf with
  | hi :: lo :: _ => Ok (byte_val hi * 256 + byte_val lo)
  | _ => Raise StructError
  end.

(** ** The CRC *)

Definition _CRC_TABLE : list Z := [
    0x0000; 0x1021; 0x2042; 0x3063; 0x4084; 0x50a5; 0x60c6; 0x70e7;
    0x8108; 0x9129; 0xa14a; 0xb16b; 0xc18c; 0xd1ad; 0xe1ce; 0xf1ef;
    0x1231; 0x0210; 0x3273; 0x2252; 0x52b5; 0x4294; 0x72f7; 0x62d6;
    0x9339; 0x8318; 0xb37b; 0xa35a; 0xd3bd; 0xc39c; 0xf3ff; 0xe3de;
    0x2462; 0x3443; 0x0420; 0x1401; 0x64e6; 0x74c7; 0x44a4; 0x5485;
    0xa56a; 0xb54b; 0x8528; 0x9509; 0xe5ee; 0xf5cf; 0xc5ac; 0xd58d;
    0x3653; 0x2672; 0x1611; 0x0630; 0x76d7; 0x66f6; 0x5695; 0x46b4;
    0xb75b; 0xa77a; 0x9719; 0x8738; 0xf7df; 0xe7fe; 0xd79d; 0xc7bc;
    0x48c4; 0x58e5; 0x6886; 0x78a7; 0x0840; 0x1861; 0x2802; 0x3823;
    0xc9cc; 0xd9ed; 0xe98e; 0xf9af; 0x8948; 0x9969; 0xa90a; 0xb92b;
    0x5af5; 0x4ad4; 0x7ab7; 0x6a96; 0x1a71; 0x0a50; 0x3a33; 0x2a12;
    0xdbfd; 0xcbdc; 0xfbbf; 0xeb9e; 0x9b79; 0x8b58; 0xbb3b; 0xab1a;
    0x6ca6; 0x7c87; 0x4ce4; 0x5cc5; 0x2c22; 0x3c03; 0x0c60; 0x1c41;
    0xedae; 0xfd8f; 0xcdec; 0xddcd; 0xad2a; 0xbd0b; 0x8d68; 0x9d49;
    0x7e97; 0x6eb6; 0x5ed5; 0x4ef4; 0x3e13; 0x2e32; 0x1e51; 0x0e70;
    0xff9f; 0xefbe; 0xdfdd; 0xcffc; 0xbf1b; 0xaf3a; 0x9f59; 0x8f78;
    0x9188; 0x81a9; 0xb1ca; 0xa1eb; 0xd10c; 0xc12d; 0xf14e; 0xe16f;
    0x1080; 0x00a1; 0x30c2; 0x20e3; 0x5004; 0x4025; 0x7046; 0x6067;
    0x83b9; 0x9398; 0xa3fb; 0xb3da; 0xc33d; 0xd31c; 0xe37f; 0xf35e;
    0x02b1; 0x1290; 0x22f3; 0x32d2; 0x4235; 0x5214; 0x6277; 0x7256;
    0xb5ea; 0xa5cb; 0x95a8; 0x8589; 0xf56e; 0xe54f; 0xd52c; 0xc50d;
    0x34e2; 0x24c3; 0x14a0; 0x0481; 0x7466; 0x6447; 0x5424; 0x4405;
    0xa7db; 0xb7fa; 0x8799; 0x97b8; 0xe75f; 0xf77e; 0xc71d; 0xd73c;
    0x26d3; 0x36f2; 0x0691; 0x16b0; 0x6657; 0x7676; 0x4615; 0x5634;
    0xd94c; 0xc96d; 0xf90e; 0xe92f; 0x99c8; 0x89e9; 0xb98a; 0xa9ab;
    0x5844; 0x4865; 0x7806; 0x6827; 0x18c0; 0x08e1; 0x3882; 0x28a3;
    0xcb7d; 0xdb5c; 0xeb3f; 0xfb1e; 0x8bf9; 0x9bd8; 0xabbb; 0xbb9a;
    0x4a75; 0x5a54; 0x6a37; 0x7a16; 0x0af1; 0x1ad0; 0x2ab3; 0x3a92;
    0xfd2e; 0xed0f; 0xdd6c; 0xcd4d; 0xbdaa; 0xad8b; 0x9de8; 0x8dc9;
    0x7c26; 0x6c07; 0x5c64; 0x4c45; 0x3ca2; 0x2c83; 0x1ce0; 0x0cc1;
    0xef1f; 0xff3e; 0xcf5d; 0xdf7c; 0xaf9b; 0xbfba; 0x8fd9; 0x9ff8;
    0x6e17; 0x7e36; 0x4e55; 0x5e74; 0x2e93; 0x3eb2; 0x0ed1; 0x1ef0].

(** One turn of the loop of [_calculate_crc]. *)
Definition crc_step (accu : Z) (b : byte) : result Z :=
  t <- list_index _CRC_TABLE (Z.lxor (Z.shiftr accu 8) (byte_val b)) ;;
  Ok (Z.lxor t (Z.shiftl (Z.land accu 0x00ff) 8)).

Fixpoint crc_loop (accu : Z) (block : list byte) : result Z :=
  match block with
  | [] => Ok accu
  | b :: rest => a <- crc_step accu b ;; crc_loop a rest
  end.

Definition _calculate_crc (block : list byte) : result Z := crc_loop 0 block.

(** ** Dates and times (Python's datetime module)

    All date-times here are naive.  The constructors raise ValueError on a
    field out of range, as Python's do. *)

Record date : Type := mk_date { year : Z; month : Z; day : Z }.
Record time : Type :=
  mk_time { hour : Z; minute : Z; second : Z; microsecond : Z }.
Record datetime : Type := mk_datetime { dt_date : date; dt_time : time }.

Definition is_leap (y : Z) : bool :=
  (y mod 4 =? 0) && (negb (y mod 100 =? 0) || (y mod 400 =? 0)).

Definition days_in_month (y m : Z) : Z :=
  if m =? 2 then (if is_leap y then 29 else 28)
  else if (m =? 4) || (m =? 6) || (m =? 9) || (m =? 11) then 30
  else 31.

(** [date(y, m, d)] *)
Definition date_new (y m d : Z) : result date :=
  if (1 <=? y) && (y <=? 9999) && (1 <=? m) && (m <=? 12)
     && (1 <=? d) && (d <=? days_in_month y m)
  then Ok (mk_date y m d)
  else Raise ValueError.

(** [time(h, mi, s, us)] *)
Definition time_new (h mi s us : Z) : result time :=
  if (0 <=? h) && (h <=? 23) && (0 <=? mi) && (mi <=? 59)
     && (0 <=? s) && (s <=? 59) && (0 <=? us) && (us <=? 999999)
  then Ok (mk_time h mi s us)
  else Raise ValueError.

(** [datetime(y, m, d, h, mi, s)] *)
Definition datetime_new (y m d h mi s : Z) : result datetime :=
  dd <- date_new y m d ;;
  tt <- time_new h mi s 0 ;;
  Ok (mk_datetime dd tt).

(** [datetime.combine(d, t)] *)
Definition datetime_combine (d : date) (t : time) : datetime := mk_datetime d t.

Definition date_eqb (a b : date) : bool :=
  (year a =? year b) && (month a =? month b) && (day a =? day b).

Fixpoint lex_compare (a b : list Z) : comparison :=
  match a, b with
  | [], [] => Eq
  | [], _ :: _ => Lt
  | _ :: _, [] => Gt
  | x :: a', y :: b' =>
      match x ?= y with
      | Eq => lex_compare a' b'
      | c => c
      end
  end.

Definition datetime_fields (t : datetime) : list Z :=
  [year (dt_date t); month (dt_date t); day (dt_date t);
   hour (dt_time t); minute (dt_time t); second (dt_time t);
   microsecond (dt_time t)].

(** The order of naive date-times: field by field, the year first. *)
Definition datetime_compare (a b : datetime) : comparison :=
  lex_compare (datetime_fields a) (datetime_fields b).

Definition datetime_ltb (a b : datetime) : bool :=
  match datetime_compare a b with Lt => true | _ => false end.
Definition datetime_gtb (a b : datetime) : bool := datetime_ltb b a.
Definition datetime_leb (a b : datetime) : bool := negb (datetime_ltb b a).

(** ** The packed date and time *)

Definition _NULL_DATE : date := mk_date 1 1 1.
Definition NULL_DATE_TIME : datetime :=
  mk_datetime (mk_date 1 1 1) (mk_time 0 0 0 0).

Definition _to_reverse_bytes_block (i : Z) : list Z :=
  [Z.land (Z.shiftr i 8) 0xff; Z.land i 0xff].

Definition _encode_time (tm : time) : Z := hour tm * 100 + minute tm.

(** Python reads [a < b & c > d] as the chain [a < (b & c) > d], that is
    [a < (b & c) and (b & c) > d]: [&] binds tighter than a comparison. *)
Definition chain_lt_and_gt (a b c d : Z) : bool :=
  (a <? Z.land b c) && (Z.land b c >? d).

Definition _decode_time (i : Z) : result (option time) :=
  let h := i / 100 in
  let m := i - (h * 100) in
  if chain_lt_and_gt h 0 h 23 || chain_lt_and_gt m 0 m 59 then
    Ok None
  else
    tm <- time_new h m 0 0 ;;
    Ok (Some tm).

Definition _encode_date (dt : date) : Z :=
  if date_eqb dt _NULL_DATE then 0
  else day dt + month dt * 32 + (year dt - 2000) * 512.

Definition _decode_date (i : Z) : result (option date) :=
  let y := Z.shiftr (Z.land i 0xfe00) 9 in
  let m := Z.shiftr (Z.land i 0x1e0) 5 in
  let d := Z.land i 0x1f in
  if chain_lt_and_gt y 0 y 99 || chain_lt_and_gt m 1 m 12
     || chain_lt_and_gt d 1 d 31 then
    Ok None
  else
    dt <- date_new (y + 2000) m d ;;
    Ok (Some dt).

(** ** struct formats used on the wire

    The formats without a byte-order mark use the host's order; the host is
    taken to be little-endian, as the console is. *)

Definition u16le (lo hi : byte) : Z := byte_val lo + 256 * byte_val hi.

Definition to_signed (bits v : Z) : Z :=
  if v <? 2 ^ (bits - 1) then v else v - 2 ^ bits.

Definition i16le (lo hi : byte) : Z := to_signed 16 (u16le lo hi).

(** Python's [s[i:j]] for [0 <= i <= j]. *)
Definition slice {A} (l : list A) (i j : nat) : list A :=
  firstn (j - i) (skipn i l).

(** [struct.unpack('HH', buf)] *)
Definition struct_unpack_HH (buf : list byte) : result (Z * Z) :=
  match buf with
  | [a; b; c; d] => Ok (u16le a b, u16le c d)
  | _ => Raise StructError
  end.

(** [struct.unpack_from('<2H', buf)] *)
Definition struct_unpack_from_LE_2H (buf : list byte) : result (Z * Z) :=
  match buf with
  | a :: b :: c :: d :: _ => Ok (u16le a b, u16le c d)
  | _ => Raise StructError
  end.

(** [struct.pack('<2H', v, w)] *)
Definition struct_pack_LE_2H (v w : Z) : result (list byte) :=
  if (0 <=? v) && (v <=? 0xffff) && (0 <=? w) && (w <=? 0xffff) then
    Ok [byte_of_Z (Z.land v 0xff); byte_of_Z (Z.shiftr v 8);
        byte_of_Z (Z.land w 0xff); byte_of_Z (Z.shiftr w 8)]
  else Raise StructError.

(** [struct.unpack('1b', buf)[0]]: one signed byte *)
Definition struct_unpack_1b (buf : list byte) : result Z :=
  match buf with
  | [b] => Ok (to_signed 8 (byte_val b))
  | _ => Raise StructError
  end.

(** [struct.pack('B', v)] *)
Definition struct_pack_B (v : Z) : result (list byte) :=
  if (0 <=? v) && (v <=? 0xff) then Ok [byte_of_Z v] else Raise StructError.

(** [struct.unpack_from('6B', buf)] *)
Definition struct_unpack_from_6B (buf : list byte) : result (list Z) :=
  match buf with
  | b0 :: b1 :: b2 :: b3 :: b4 :: b5 :: _ =>
      Ok (map byte_val [b0; b1; b2; b3; b4; b5])
  | _ => Raise StructError
  end.

(** [struct.pack('6B', ...)] *)
Definition struct_pack_6B (vs : list Z) : result (list byte) :=
  if forallb (fun v => (0 <=? v) && (v <=? 0xff)) vs then Ok (map byte_of_Z vs)
  else Raise StructError.

Definition _date_time_to_array (dt : datetime) : result (list byte) :=
  struct_pack_LE_2H (_encode_date (dt_date dt)) (_encode_time (dt_time dt)).

Definition _is_valid_record (s : list byte) : result bool :=
  el <- struct_unpack_HH (slice s 0 4) ;;
  if (fst el =? 65535) || (snd el =? 65535) then Ok false
  else
    dt <- _decode_date (fst el) ;;
    match dt with
    | None => Ok false
    | Some _ =>
        tm <- _decode_time (snd el) ;;
        match tm with
        | None => Ok false
        | Some _ => Ok true
        end
    end.

(** ** The serial port

    [rx] holds the bytes the console will send, in order; [tx] the bytes
    written so far.  [read(n)] hands out the next [n] bytes, or fewer when the
    console has no more to send before the timeout. *)

Record port : Type := mk_port { rx : list byte; tx : list byte }.

Definition io (A : Type) : Type := port -> result A * port.

Definition ret {A} (a : A) : io A := fun p => (Ok a, p).

Definition bind {A B} (c : io A) (k : A -> io B) : io B :=
  fun p =>
    match c p with
    | (Ok a, p') => k a p'
    | (Raise e, p') => (Raise e, p')
    end.

Definition lift {A} (r : result A) : io A := fun p => (r, p).

Declare Scope io_scope.
Delimit Scope io_scope with io.
Notation "x <~ c ;; k" := (bind c (fun x => k))
  (at level 61, c at next level, right associativity) : io_scope.
Notation "c ;;; k" := (bind c (fun _ => k))
  (at level 61, right associativity) : io_scope.
Local Open Scope io_scope.

Definition serial_read (n : nat) : io (list byte) :=
  fun p => (Ok (firstn n (rx p)), mk_port (skipn n (rx p)) (tx p)).

Definition serial_write (bs : list byte) : io unit :=
  fun p => (Ok tt, mk_port (rx p) (tx p ++ bs)).

(** *** Communicator (serial_comm.py) *)

Definition CR : Z := 0x0D.
Definition LF : Z := 0x0A.
Definition ACK : Z := 0x06.
Definition NAK : Z := 0x21.
Definition CANCEL : Z := 0x18.

Definition wait_for_ack : io bool :=
  rcv <~ serial_read 1 ;;
  els <~ lift (struct_unpack_1b rcv) ;;
  if ACK =? els then ret true else ret false.

Definition write_ack : io unit :=
  bs <~ lift (struct_pack_B ACK) ;;
  serial_write bs.

Definition write (bytes_to_send : list byte) : io unit :=
  serial_write bytes_to_send.

Definition read (num_bytes : nat) : io (list byte) := serial_read num_bytes.

(** ** Configuration of a DavisCommunicator *)

Module RainCollector.
Inductive t : Type := RAIN_001IN | RAIN_01MM | RAIN_02MM.
Definition eqb (a b : t) : bool :=
  match a, b with
  | RAIN_001IN, RAIN_001IN | RAIN_01MM, RAIN_01MM | RAIN_02MM, RAIN_02MM => true
  | _, _ => false
  end.
End RainCollector.

Module RainMeasurementsUnit.
Inductive t : Type := MM | IN.
Definition eqb (a b : t) : bool :=
  match a, b with
  | MM, MM | IN, IN => true
  | _, _ => false
  end.
End RainMeasurementsUnit.

Module TemperatureMeasurementsUnit.
Inductive t : Type := F | C.
Definition eqb (a b : t) : bool :=
  match a, b with
  | F, F | C, C => true
  | _, _ => false
  end.
End TemperatureMeasurementsUnit.

Module WindSpeedMeasurementsUnit.
Inductive t : Type := M_S | K.
Definition eqb (a b : t) : bool :=
  match a, b with
  | M_S, M_S | K, K => true
  | _, _ => false
  end.
End WindSpeedMeasurementsUnit.

Module WindDirMeasurementsUnit.
Inductive t : Type := DEG | NAMES.
Definition eqb (a b : t) : bool :=
  match a, b with
  | DEG, DEG | NAMES, NAMES => true
  | _, _ => false
  end.
End WindDirMeasurementsUnit.

Module AirPressureMeasurementsUnit.
Inductive t : Type := IN_HG | HPA.
Definition eqb (a b : t) : bool :=
  match a, b with
  | IN_HG, IN_HG | HPA, HPA => true
  | _, _ => false
  end.
End AirPressureMeasurementsUnit.

(** The fields that [__init__] stores, apart from the port and the logger. *)
Record DavisCommunicator : Type := mk_DavisCommunicator {
  _rain_collector : RainCollector.t;
  _rain_measurements_unit : RainMeasurementsUnit.t;
  _temperature_measurements_unit : TemperatureMeasurementsUnit.t;
  _wind_speed_measurements_unit : WindSpeedMeasurementsUnit.t;
  _air_pressure_measurements_unit : AirPressureMeasurementsUnit.t;
  _wind_dir_measurements_unit : WindDirMeasurementsUnit.t;
  _retries_attempt : Z;
  _altitude : float
}.

Definition _RETRIES : Z := 3.

(** The keyword defaults of [__init__]. *)
Definition default_DavisCommunicator : DavisCommunicator :=
  {| _rain_collector := RainCollector.RAIN_02MM;
     _rain_measurements_unit := RainMeasurementsUnit.MM;
     _temperature_measurements_unit := TemperatureMeasurementsUnit.C;
     _wind_speed_measurements_unit := WindSpeedMeasurementsUnit.M_S;
     _air_pressure_measurements_unit := AirPressureMeasurementsUnit.HPA;
     _wind_dir_measurements_unit := WindDirMeasurementsUnit.NAMES;
     _retries_attempt := _RETRIES;
     _altitude := 0%float |}.

(** ** DavisCommunicator: wake-up and the clock *)

Definition bytes_eqb (a b : list byte) : bool :=
  if list_eq_dec Byte.byte_eq_dec a b then true else false.

(** The body of [wake_up] for the attempts that remain. *)
Fixpoint wake_up_loop (attempts : nat) : io bool :=
  match attempts with
  | O => ret false
  | S k =>
      write [x0a] ;;;
      rcv <~ read 2 ;;
      if bytes_eqb [x0a; x0d] rcv then ret true else wake_up_loop k
  end.

(** [range(n)] runs [n] times, and not at all when [n <= 0]. *)
Definition wake_up (self : DavisCommunicator) : io bool :=
  wake_up_loop (Z.to_nat (_retries_attempt self)).

Definition get_time : io (option datetime) :=
  write (list_byte_of_string "GETTIME") ;;;
  write [x0a] ;;;
  _ <~ wait_for_ack ;;
  rcv <~ read 6 ;;
  crcv <~ read 2 ;;
  crc_rcv <~ lift (struct_unpack_from_BE_H crcv) ;;
  crc_calc <~ lift (_calculate_crc rcv) ;;
  if negb (crc_rcv =? crc_calc) then ret None
  else
    el <~ lift (struct_unpack_from_6B rcv) ;;
    let second := nth 0 el 0 in
    let minute := nth 1 el 0 in
    let hour := nth 2 el 0 in
    let day := nth 3 el 0 in
    let month := nth 4 el 0 in
    let year := 1900 + nth 5 el 0 in
    dt <~ lift (datetime_new year month day hour minute second) ;;
    ret (Some dt).

Definition set_time (dt : datetime) : io unit :=
  write (list_byte_of_string "SETTIME") ;;;
  write [x0a] ;;;
  _ <~ wait_for_ack ;;
  buf <~ lift (struct_pack_6B
                 [second (dt_time dt); minute (dt_time dt); hour (dt_time dt);
                  day (dt_date dt); month (dt_date dt);
                  year (dt_date dt) - 1900]) ;;
  crc_buf <~ lift (_calculate_crc buf) ;;
  write buf ;;;
  tail <~ lift (struct_pack_BE_H crc_buf) ;;
  write tail ;;;
  _ <~ wait_for_ack ;;
  ret tt.

(** ** Numbers of the archive record

    Python floats are binary64, as the primitive floats are; a decimal
    literal denotes the nearest binary64 value in both. *)

Set Warnings "-inexact-float".

(** An int used where a float is expected (exact for [|z| < 2^53]). *)
Definition float_of_Z (z : Z) : float :=
  if z <? 0 then PrimFloat.opp (PrimFloat.of_uint63 (Uint63.of_Z (- z)))
  else PrimFloat.of_uint63 (Uint63.of_Z z).

(** A value that is an int on one branch of the source and a float on the
    other. *)
Inductive pynum : Type :=
| PyInt (z : Z)
| PyFloat (f : float).

(** A wind direction: a sector name, or its bearing. *)
Inductive wind_dir : Type :=
| DirName (name : string)
| DirDeg (deg : pynum).

(** [a / b] on floats raises ZeroDivisionError when [b] is zero. *)
Definition float_truediv (a b : float) : result float :=
  if PrimFloat.is_zero b then Raise ZeroDivisionError else Ok (a / b)%float.

Definition _WIND_DIRECTIONS : list string :=
  ["N"; "NNE"; "NE"; "ENE"; "E"; "ESE"; "SE"; "SSE"; "S"; "SSW"; "SW"; "WSW";
   "W"; "WNW"; "NW"; "NNW"]%string.

Definition _WIND_DIRECTIONS_DEG_MAP : list (string * pynum) :=
  [("N", PyFloat 0.0); ("NNE", PyFloat 22.5); ("NE", PyFloat 45.0);
   ("ENE", PyFloat 67.5); ("E", PyFloat 90.0); ("ESE", PyFloat 112.5);
   ("SE", PyInt 135); ("SSE", PyFloat 157.5); ("S", PyFloat 180.0);
   ("SSW", PyFloat 202.5); ("SW", PyFloat 225.0); ("WSW", PyFloat 247.5);
   ("W", PyFloat 270.0); ("WNW", PyFloat 292.5); ("NW", PyFloat 315.0);
   ("NNW", PyFloat 337.5)]%string.

(** [d[k]] on a dict: the exception for a missing key is not told apart
    from IndexError here. *)
Fixpoint dict_get {V} (d : list (string * V)) (k : string) : result V :=
  match d with
  | [] => Raise IndexError
  | (k', v) :: d' => if String.eqb k' k then Ok v else dict_get d' k
  end.

Definition _G0 : float := 9.80665.
Definition _RS : float := 8.31432.
Definition _M_AIR : float := 0.0289644.

Record MeteoRecord : Type := mk_MeteoRecord {
  record_date : option date;
  record_time : option time;
  out_temp : option float;
  low_out_temp : option float;
  hi_out_temp : option float;
  outside_humidity : option Z;
  barometer : option float;
  barometer_sea : option float;
  avg_wind_speed : option pynum;
  direction_prev_wind : option wind_dir;
  high_wind_speed : option pynum;
  direction_hi_wind : option wind_dir;
  rainfall : option float;
  high_rain_rate : option float;
  solar_radiation : option Z;
  no_wind_samples : option Z;
  inside_temp : option float;
  inside_humidity : option Z
}.

(** [MeteoRecord.datetime]: [datetime.combine] refuses None. *)
Definition MeteoRecord_datetime (r : MeteoRecord) : result datetime :=
  match record_date r, record_time r with
  | Some d, Some t => Ok (datetime_combine d t)
  | _, _ => Raise TypeError
  end.

Definition u8_at (s : list byte) (off : nat) : Z := byte_val (nth off s x00).
Definition u16_at (s : list byte) (off : nat) : Z :=
  u16le (nth off s x00) (nth (S off) s x00).
Definition i16_at (s : list byte) (off : nat) : Z :=
  i16le (nth off s x00) (nth (S off) s x00).

(** [struct.unpack('2H3h5Hh8BH20B', s)]: 40 values from exactly 52 bytes (no
    padding is needed: every 16-bit field sits at an even offset). *)
Definition struct_unpack_archive (s : list byte) : result (list Z) :=
  if Nat.eqb (List.length s) 52 then
    Ok ([u16_at s 0; u16_at s 2;
         i16_at s 4; i16_at s 6; i16_at s 8;
         u16_at s 10; u16_at s 12; u16_at s 14; u16_at s 16; u16_at s 18;
         i16_at s 20]
        ++ map (u8_at s) (seq 22 8)
        ++ [u16_at s 30]
        ++ map (u8_at s) (seq 32 20))
  else Raise StructError.

(** [struct.unpack_from('B52s52s52s52s52s', page)[1:]]: the five slots after
    the sequence byte; the buffer must hold at least 261 bytes. *)
Definition struct_unpack_from_page (page : list byte) : result (list (list byte)) :=
  if Nat.leb 261 (List.length page) then
    Ok (map (fun j => slice page (1 + 52 * j) (1 + 52 * (j + 1))) (seq 0 5))
  else Raise StructError.

Definition _convert_wind_dir (self : DavisCommunicator) (wv : Z)
  : result (option wind_dir) :=
  if (0 <=? wv) && (wv <=? 15) then
    wind_dir_name <- list_index _WIND_DIRECTIONS wv ;;
    if WindDirMeasurementsUnit.eqb (_wind_dir_measurements_unit self)
         WindDirMeasurementsUnit.NAMES
    then Ok (Some (DirName wind_dir_name))
    else
      deg <- dict_get _WIND_DIRECTIONS_DEG_MAP wind_dir_name ;;
      Ok (Some (DirDeg deg))
  else Ok None.

Definition _convert_rain (self : DavisCommunicator) (v : Z) : option float :=
  if RainMeasurementsUnit.eqb (_rain_measurements_unit self)
       RainMeasurementsUnit.MM then
    let transform :=
      if RainCollector.eqb (_rain_collector self) RainCollector.RAIN_001IN
      then Some (0.01 * 25.45)%float
      else if RainCollector.eqb (_rain_collector self) RainCollector.RAIN_01MM
      then Some 0.1%float
      else if RainCollector.eqb (_rain_collector self) RainCollector.RAIN_02MM
      then Some 0.2%float
      else None in
    match transform with
    | Some t => Some (float_of_Z v * t)%float
    | None => None
    end
  else if RainMeasurementsUnit.eqb (_rain_measurements_unit self)
            RainMeasurementsUnit.IN then
    let transform :=
      if RainCollector.eqb (_rain_collector self) RainCollector.RAIN_001IN
      then Some 0.01%float
      else if RainCollector.eqb (_rain_collector self) RainCollector.RAIN_01MM
      then Some (0.1 / 25.45)%float
      else if RainCollector.eqb (_rain_collector self) RainCollector.RAIN_02MM
      then Some (0.2 / 25.45)%float
      else None in
    match transform with
    | Some t => Some (float_of_Z v * t)%float
    | None => None
    end
  else None.

Definition _convert_wind_speed (self : DavisCommunicator) (v : Z) : pynum :=
  if WindSpeedMeasurementsUnit.eqb (_wind_speed_measurements_unit self)
       WindSpeedMeasurementsUnit.K
  then PyInt v
  else PyFloat (float_of_Z v * 0.44704)%float.

Definition _convert_air_pressure (self : DavisCommunicator) (v : Z) : float :=
  let air_press_in_hg := (float_of_Z v / 1000.0)%float in
  if AirPressureMeasurementsUnit.eqb (_air_pressure_measurements_unit self)
       AirPressureMeasurementsUnit.IN_HG
  then air_press_in_hg
  else (air_press_in_hg * 33.86389)%float.

Definition _convert_temp (self : DavisCommunicator) (v : Z) : float :=
  let temp_in_fahrenheit := (float_of_Z v / 10.0)%float in
  if TemperatureMeasurementsUnit.eqb (_temperature_measurements_unit self)
       TemperatureMeasurementsUnit.F
  then temp_in_fahrenheit
  else (5.0 / 9.0 * (temp_in_fahrenheit - 32))%float.

(** [records.sort(key=...)]: Python's sort is stable and compares keys with
    [<]; the sorted arrangement that keeps equal keys in their first order is
    unique, and insertion from the right produces it. *)
Fixpoint insert_by_key {A} (x : datetime * A) (l : list (datetime * A))
  : list (datetime * A) :=
  match l with
  | [] => [x]
  | y :: l' =>
      if datetime_ltb (fst y) (fst x) then y :: insert_by_key x l'
      else x :: y :: l'
  end.

Definition stable_sort {A} (l : list (datetime * A)) : list (datetime * A) :=
  fold_right insert_by_key [] l.

(** The keys are computed for every element before anything is moved. *)
Fixpoint with_keys (records : list MeteoRecord)
  : result (list (datetime * MeteoRecord)) :=
  match records with
  | [] => Ok []
  | r :: rest =>
      k <- MeteoRecord_datetime r ;;
      ks <- with_keys rest ;;
      Ok ((k, r) :: ks)
  end.

Definition sort_records (records : list MeteoRecord) : result (list MeteoRecord) :=
  ks <- with_keys records ;;
  Ok (map snd (stable_sort ks)).

(** ** DavisCommunicator: the archive

    [math.exp] belongs to the C library under Python; it is a parameter
    here. *)

Section Archive.

Variable math_exp : float -> result float.

Definition _barometric_formula (temp barometric_pressure hdiff : float)
  : result float :=
  if PrimFloat.is_nan temp || PrimFloat.is_nan barometric_pressure
     || PrimFloat.is_nan hdiff
  then Ok PrimFloat.nan
  else
    let temp := (temp + 273.75)%float in
    q <- float_truediv ((- _G0) * _M_AIR * hdiff)%float (_RS * temp)%float ;;
    e <- math_exp q ;;
    Ok (barometric_pressure * e)%float.

Definition _create_archive_data_from_bytes (self : DavisCommunicator)
  (s : list byte) : result MeteoRecord :=
  vl <- struct_unpack_archive s ;;
  let vl := fun k => nth k vl 0 in
  dt <- _decode_date (vl 0%nat) ;;
  match dt with
  | None => Raise AttributeError
  | Some dt =>
      let record_date :=
        if (year dt =? 0) && (month dt =? 0) && (day dt =? 0) then None
        else Some dt in
      record_time <- _decode_time (vl 1%nat) ;;
      let out_temp :=
        if vl 2%nat =? 32767 then None else Some (_convert_temp self (vl 2%nat)) in
      let hi_out_temp :=
        if vl 3%nat =? -32768 then None else Some (_convert_temp self (vl 3%nat)) in
      let low_out_temp :=
        if vl 4%nat =? 32767 then None else Some (_convert_temp self (vl 4%nat)) in
      let rainfall := _convert_rain self (vl 5%nat) in
      let high_rain_rate := _convert_rain self (vl 6%nat) in
      let barometer :=
        if vl 7%nat =? 0 then None
        else Some (_convert_air_pressure self (vl 7%nat)) in
      let solar_radiation :=
        if vl 8%nat =? 32767 then None else Some (vl 8%nat) in
      let no_wind_samples := if vl 9%nat =? 0 then None else Some (vl 9%nat) in
      let inside_temp :=
        if vl 10%nat =? 32767 then None
        else Some (_convert_temp self (vl 10%nat)) in
      let inside_humidity :=
        if vl 11%nat =? 255 then None else Some (vl 11%nat) in
      let outside_humidity :=
        if vl 12%nat =? 255 then None else Some (vl 12%nat) in
      let avg_wind_speed :=
        if vl 13%nat =? 255 then None
        else Some (_convert_wind_speed self (vl 13%nat)) in
      let high_wind_speed :=
        if vl 14%nat =? 0 then None
        else Some (_convert_wind_speed self (vl 14%nat)) in
      direction_hi_wind <-
        (if vl 15%nat =? 255 then Ok None
         else _convert_wind_dir self (vl 15%nat)) ;;
      direction_prev_wind <-
        (if vl 16%nat =? 255 then Ok None
         else _convert_wind_dir self (vl 16%nat)) ;;
      barometer_sea <-
        match barometer, inside_temp with
        | Some b, Some t =>
            p <- _barometric_formula t b (0.0 - _altitude self)%float ;;
            Ok (Some p)
        | _, _ => Ok None
        end ;;
      Ok {| record_date := record_date;
            record_time := record_time;
            out_temp := out_temp;
            low_out_temp := low_out_temp;
            hi_out_temp := hi_out_temp;
            outside_humidity := outside_humidity;
            barometer := barometer;
            barometer_sea := barometer_sea;
            avg_wind_speed := avg_wind_speed;
            direction_prev_wind := direction_prev_wind;
            high_wind_speed := high_wind_speed;
            direction_hi_wind := direction_hi_wind;
            rainfall := rainfall;
            high_rain_rate := high_rain_rate;
            solar_radiation := solar_radiation;
            no_wind_samples := no_wind_samples;
            inside_temp := inside_temp;
            inside_humidity := inside_humidity |}
  end.

(** The body of the loop over [j] for one slot: [records] is the list so
    far, [i] the page number. *)
Definition process_slot (self : DavisCommunicator) (last_stored_date : datetime)
  (valid_record i : Z) (records : list MeteoRecord) (j : Z) (slot : list byte)
  : result (list MeteoRecord) :=
  if (i =? 0) && (j <? valid_record) then Ok records
  else
    valid <- _is_valid_record slot ;;
    if valid then
      data_record <- _create_archive_data_from_bytes self slot ;;
      record_timestamp <- MeteoRecord_datetime data_record ;;
      if datetime_gtb record_timestamp last_stored_date
      then Ok (records ++ [data_record])
      else Ok records
    else Ok records.

(** The loop over [j], on the slots [el[1 + j]] that are left. *)
Fixpoint process_slots (self : DavisCommunicator) (last_stored_date : datetime)
  (valid_record i : Z) (records : list MeteoRecord) (j : Z)
  (slots : list (list byte)) : result (list MeteoRecord) :=
  match slots with
  | [] => Ok records
  | slot :: rest =>
      records' <- process_slot self last_stored_date valid_record i records j slot ;;
      process_slots self last_stored_date valid_record i records' (j + 1) rest
  end.

(** The loop over the pages: [pages] are still to come, [i] is the number
    of the next one. *)
Fixpoint read_pages (self : DavisCommunicator) (last_stored_date : datetime)
  (valid_record : Z) (pages : nat) (i : Z) (records : list MeteoRecord)
  : io (list MeteoRecord) :=
  match pages with
  | O => ret records
  | S pages' =>
      page_data <~ read 267 ;;
      let page := slice page_data 0 265 in
      let crc_data := slice page_data 265 267 in
      crc <~ lift (struct_unpack_from_BE_H crc_data) ;;
      calc_crc <~ lift (_calculate_crc page) ;;
      records' <~
        (if calc_crc =? crc then
           write_ack ;;;
           el <~ lift (struct_unpack_from_page page) ;;
           lift (process_slots self last_stored_date valid_record i records 0 el)
         else ret records) ;;
      read_pages self last_stored_date valid_record pages' (i + 1) records'
  end.

Definition get_archive_data (self : DavisCommunicator)
  (last_stored_date : datetime) : io (list MeteoRecord) :=
  write (list_byte_of_string "DMPAFT") ;;;
  write [x0a] ;;;
  _ <~ wait_for_ack ;;
  buf <~ lift (_date_time_to_array last_stored_date) ;;
  crc_buf <~ lift (_calculate_crc buf) ;;
  write buf ;;;
  tail <~ lift (struct_pack_BE_H crc_buf) ;;
  write tail ;;;
  _ <~ wait_for_ack ;;
  rcv <~ read 4 ;;
  crcv <~ read 2 ;;
  crc_rcv <~ lift (struct_unpack_from_BE_H crcv) ;;
  el <~ lift (struct_unpack_from_LE_2H rcv) ;;
  let num_pages := fst el in
  let valid_record := snd el in
  calculated_crc <~ lift (_calculate_crc rcv) ;;
  write_ack ;;;
  records <~ read_pages self last_stored_date valid_record
               (Z.to_nat num_pages) 0 [] ;;
  lift (sort_records records).

End Archive.

(** ** Sample frames *)

(** Two bytes, low byte first. *)
Definition le16 (v : Z) : list byte :=
  [byte_of_Z (Z.land v 0xff); byte_of_Z (Z.shiftr v 8)].

(** Bytes 4..51 of a slot in which every measurement that has a sentinel
    carries it, and both rain counters are 0. *)
Definition sentinel_fields : list byte :=
  [xff; x7f;  x00; x80;  xff; x7f;  x00; x00;  x00; x00;  x00; x00;
   xff; x7f;  x00; x00;  xff; x7f;  xff; xff; xff; x00; xff; xff]
  ++ repeat xff 24.

(** A slot with the given packed date and time and no measurement. *)
Definition empty_slot (packed_date packed_time : Z) : list byte :=
  le16 packed_date ++ le16 packed_time ++ sentinel_fields.

(** 2022-13-01 00:00: the month field holds 13. *)
Definition slot_month_13 : list byte := empty_slot (1 + 13 * 32 + 22 * 512) 0.

(** 2022-02-01 at hour 0, minute 60. *)
Definition slot_minute_60 : list byte := empty_slot (1 + 2 * 32 + 22 * 512) 60.

(** A slot no date was ever written to. *)
Definition blank_slot : list byte := repeat xff 52.

(** The console's reply to GETTIME for 2024-06-12 14:45:30: the byte at the
    acknowledgement point, six payload bytes, their CRC 0x716f. *)
Definition gettime_payload : list byte := [x1e; x2d; x0e; x0c; x06; x7c].
Definition gettime_reply (ack : byte) : list byte :=
  ack :: gettime_payload ++ [x71; x6f].

(** A frame: the body followed by its CRC, high byte first. *)
Definition with_crc (body : list byte) : list byte :=
  match _calculate_crc body with
  | Ok c => body ++ [byte_of_Z (Z.shiftr c 8); byte_of_Z (Z.land c 0xff)]
  | Raise _ => body
  end.

(** A page of 267 bytes: sequence byte 0, five slots, four unused bytes,
    CRC. *)
Definition archive_page (slots : list (list byte)) : list byte :=
  with_crc (x00 :: List.concat slots ++ repeat xff 4).

(** 2022-02-01 12:00, no measurement. *)
Definition noon_slot : list byte := empty_slot (1 + 2 * 32 + 22 * 512) 1200.

(** 2022-02-01 12:30, no measurement. *)
Definition half_past_noon_slot : list byte :=
  empty_slot (1 + 2 * 32 + 22 * 512) 1230.

(** What the console sends during DMPAFT: two bytes at the acknowledgement
    points, the header "1 page, first valid record 0", the two CRC bytes of
    the header, the pages.  The CRC of this header is 0x76b4. *)
Definition dmpaft_reply (ack1 ack2 : byte) (header_crc pages : list byte)
  : list byte :=
  [ack1; ack2] ++ [x01; x00; x00; x00] ++ header_crc ++ pages.

(** What [get_archive_data] writes when asked for everything after the null
    date-time and one page arrives intact: the command, the packed null
    date-time with its CRC, an ACK for the header and one for the page. *)
Definition dmpaft_sent : list byte :=
  list_byte_of_string "DMPAFT" ++ [x0a]
  ++ [x00; x00; x00; x00] ++ [x00; x00] ++ [x06] ++ [x06].

(** A stand-in for [math.exp] to run examples with: exact at zero, a short
    series elsewhere. *)
Definition exp_series (x : float) : result float :=
  if PrimFloat.is_zero x then Ok 1%float
  else Ok (1 + x * (1 + x / 2 * (1 + x / 3 * (1 + x / 4))))%float.

(** The record decoded from [empty_slot] with the default configuration. *)
Definition bare_record (d : date) (t : time) : MeteoRecord :=
  {| record_date := Some d; record_time := Some t;
     out_temp := None; low_out_temp := None; hi_out_temp := None;
     outside_humidity := None; barometer := None; barometer_sea := None;
     avg_wind_speed := None; direction_prev_wind := None;
     high_wind_speed := None; direction_hi_wind := None;
     rainfall := Some 0%float; high_rain_rate := Some 0%float;
     solar_radiation := None; no_wind_samples := None;
     inside_temp := None; inside_humidity := None |}.

(** A download of one page whose first three slots are stamped 12:30, 12:00
    and 12:00 on 2022-02-01. *)
Definition repeated_stamp_port : port :=
  mk_port
    (dmpaft_reply x06 x06 [x76; xb4]
       (archive_page
          [half_past_noon_slot; noon_slot; noon_slot; blank_slot; blank_slot]))
    [].

(** A slot for 2022-02-01 12:00 in which every measurement is present:
    3 clicks of rain, barometer 29.950 inHg, inside temperature 70.0 F. *)
Definition full_slot : list byte :=
  le16 (1 + 2 * 32 + 22 * 512) ++ le16 1200
  ++ le16 215 ++ le16 220 ++ le16 210 ++ le16 3 ++ le16 12 ++ le16 29950
  ++ le16 500 ++ le16 100 ++ le16 700
  ++ [x28; x37; x05; x09; x04; x06] ++ repeat xff 24.

(** ** Notions used in the statements *)

(** What the attempt numbered [k] (from 0) reads from the stream [l]. *)
Definition attempt_reply (l : list byte) (k : nat) : list byte :=
  firstn 2 (skipn (2 * k) l).

(** Two runs end alike: the same result, the same bytes written and, when
    the result is a value, the same bytes left to read. *)
Definition same_outcome {A} (x y : result A * port) : Prop :=
  fst x = fst y /\ tx (snd x) = tx (snd y) /\
  (forall a, fst x = Ok a -> rx (snd x) = rx (snd y)).

(** Two neighbours of the sorted list: the first key is not after the
    second. *)
Definition key_le {A} (x y : datetime * A) : Prop :=
  datetime_leb (fst x) (fst y) = true.

Inductive neighbours_ordered {A} : list (datetime * A) -> Prop :=
| ordered_nil : neighbours_ordered []
| ordered_one x : neighbours_ordered [x]
| ordered_cons x y l :
    key_le x y -> neighbours_ordered (y :: l) -> neighbours_ordered (x :: y :: l).

(** The size of one click of the rain gauge, by unit and by collector. *)
Definition rain_click_size (u : RainMeasurementsUnit.t) (c : RainCollector.t)
  : float :=
  match u, c with
  | RainMeasurementsUnit.MM, RainCollector.RAIN_001IN => (0.01 * 25.45)%float
  | RainMeasurementsUnit.MM, RainCollector.RAIN_01MM => 0.1%float
  | RainMeasurementsUnit.MM, RainCollector.RAIN_02MM => 0.2%float
  | RainMeasurementsUnit.IN, RainCollector.RAIN_001IN => 0.01%float
  | RainMeasurementsUnit.IN, RainCollector.RAIN_01MM => (0.1 / 25.45)%float
  | RainMeasurementsUnit.IN, RainCollector.RAIN_02MM => (0.2 / 25.45)%float
  end.

(** [f] holds on the [n] integers from [lo] on. *)
Fixpoint forall_range (f : Z -> bool) (lo : Z) (n : nat) : bool :=
  match n with
  | O => true
  | S k => f lo && forall_range f (lo + 1) k
  end.

(** The values of [f] on the [2 ^ depth] integers from [lo] on, as the leaves
    of a balanced tree. *)
Inductive range_tree (A : Type) : Type :=
| Leaf (a : A)
| Node (l r : range_tree A).
Arguments Leaf {A} a.
Arguments Node {A} l r.

Fixpoint tree_range {A} (f : Z -> A) (lo : Z) (depth : nat) : range_tree A :=
  match depth with
  | O => Leaf (f lo)
  | S d => Node (tree_range f lo d) (tree_range f (lo + 2 ^ Z.of_nat d) d)
  end.

(** With a height difference of [0.0 - 0.0], the temperature [t] is not NaN,
    the divisor of the barometric formula is not zero and the quotient
    handed to [math.exp] is a zero. *)
Definition exponent_is_zero (t : float) : bool :=
  negb (PrimFloat.is_nan t)
  && negb (PrimFloat.is_zero (_RS * (t + 273.75))%float)
  && PrimFloat.is_zero
       (((- _G0) * _M_AIR * (0.0 - 0)) / (_RS * (t + 273.75)))%float.

(** ** The remaining operations and their callers *)

(** [struct.pack('2b', v, w)]: two signed bytes. *)
Definition struct_pack_2b (v w : Z) : result (list byte) :=
  if (-128 <=? v) && (v <=? 127) && (-128 <=? w) && (w <=? 127) then
    Ok [byte_of_Z v; byte_of_Z w]
  else Raise StructError.

Definition get_station_code : io Z :=
  write (list_byte_of_string "WRD") ;;;
  bs <~ lift (struct_pack_2b 0x12 0x4d) ;;
  write bs ;;;
  write [x0a] ;;;
  _ <~ wait_for_ack ;;
  rcv <~ read 1 ;;
  els <~ lift (struct_unpack_1b rcv) ;;
  ret els.

(** [b == s] for a [bytes] value and a [str] value: two values of these
    types are never equal. *)
Definition bytes_eq_str (b : list byte) (s : string) : bool := false.

(** The text the source compares the reply with: LF CR "TEST" LF CR. *)
Definition test_echo : list byte :=
  [x0a; x0d] ++ list_byte_of_string "TEST" ++ [x0a; x0d].

Definition test_comm : io bool :=
  write (list_byte_of_string "TEST" ++ [x0a]) ;;;
  rcv <~ read 8 ;;
  ret (bytes_eq_str rcv (string_of_list_byte test_echo)).

(** [CheckTime._process_check_time] (checktime.py), between opening and
    closing the port. *)
Definition _process_check_time : io (option datetime) :=
  _ <~ wake_up default_DavisCommunicator ;;
  _ <~ test_comm ;;
  dt <~ get_time ;;
  ret dt.

(** [SetTime._process_set_time] (settime.py; checktime.py has the same):
    the time read back is formatted for the log with [dt.isoformat()], which
    raises AttributeError on None. *)
Definition _process_set_time (newtime : datetime) : io unit :=
  _ <~ wake_up default_DavisCommunicator ;;
  _ <~ test_comm ;;
  set_time newtime ;;;
  dt <~ get_time ;;
  match dt with
  | None => lift (Raise AttributeError)
  | Some _ => ret tt
  end.

Section ArchiveCaller.

Variable math_exp : float -> result float.

(** [StationLogger._read_archiveRecords] (stationlogger.py), between opening
    and closing the port: bearings in degrees, the configured altitude, the
    other settings at their defaults.  The last stored measurement [lsm],
    which the source reads from the data file, is an argument. *)
Definition _read_archiveRecords (station_altitude : float) (lsm : datetime)
  : io (list MeteoRecord) :=
  let davis_communicator :=
    {| _rain_collector := RainCollector.RAIN_02MM;
       _rain_measurements_unit := RainMeasurementsUnit.MM;
       _temperature_measurements_unit := TemperatureMeasurementsUnit.C;
       _wind_speed_measurements_unit := WindSpeedMeasurementsUnit.M_S;
       _air_pressure_measurements_unit := AirPressureMeasurementsUnit.HPA;
       _wind_dir_measurements_unit := WindDirMeasurementsUnit.DEG;
       _retries_attempt := _RETRIES;
       _altitude := station_altitude |} in
  _ <~ wake_up davis_communicator ;;
  _ <~ test_comm ;;
  records <~ get_archive_data math_exp davis_communicator lsm ;;
  ret records.

End ArchiveCaller.

(** ** Further notions used in the statements *)

(** The six bytes [set_time] sends for a date-time. *)
Definition clock_payload (dt : datetime) : list byte :=
  map byte_of_Z
    [second (dt_time dt); minute (dt_time dt); hour (dt_time dt);
     day (dt_date dt); month (dt_date dt); year (dt_date dt) - 1900].

(** The number a [pynum] stands for, as a float. *)
Definition pynum_float (x : pynum) : float :=
  match x with
  | PyInt z => float_of_Z z
  | PyFloat f => f
  end.

(** A record carries a timestamp later than [since]. *)
Definition newer_than (since : datetime) (r : MeteoRecord) : Prop :=
  exists t, MeteoRecord_datetime r = Ok t /\ datetime_gtb t since = true.

(** A wind direction, when the record has one, is a bearing. *)
Definition bearing_or_absent (w : option wind_dir) : Prop :=
  match w with
  | Some (DirName _) => False
  | _ => True
  end.

(** * Proofs *)

(** ** Bytes and bit operations *)

Lemma byte_val_range (b : byte) : 0 <= byte_val b < 256.
Proof.
  unfold byte_val. pose proof (Byte.to_N_bounded b). lia.
Qed.

Lemma byte_val_of_Z (z : Z) : 0 <= z < 256 -> byte_val (byte_of_Z z) = z.
Proof.
  intros Hz. unfold byte_val, byte_of_Z.
  rewrite Z.mod_small by lia.
  destruct (Byte.of_N (Z.to_N z)) as [b|] eqn:E.
  - apply Byte.to_of_N in E. rewrite E. lia.
  - apply Byte.of_N_None_iff in E. lia.
Qed.

Lemma lxor_range (n a b : Z) :
  0 <= n -> 0 <= a < 2 ^ n -> 0 <= b < 2 ^ n -> 0 <= Z.lxor a b < 2 ^ n.
Proof.
  intros Hn Ha Hb. split.
  - apply Z.lxor_nonneg. lia.
  - destruct (Z.eq_dec (Z.lxor a b) 0) as [E|E].
    + rewrite E. apply Z.pow_pos_nonneg; lia.
    + assert (Hpos : 0 < Z.lxor a b).
      { pose proof (proj2 (Z.lxor_nonneg a b)) as H. lia. }
      apply Z.log2_lt_pow2; [exact Hpos|].
      pose proof (Z.log2_lxor a b) as Hl.
      assert (Z.log2 a < n).
      { destruct (Z.eq_dec a 0) as [->|]; [|apply Z.log2_lt_pow2; lia].
        destruct (Z.eq_dec b 0) as [->|]; [rewrite Z.lxor_0_l in E; lia|].
        assert (0 < n) by (destruct (Z.eq_dec n 0) as [->|]; [simpl in Hb; lia|lia]).
        simpl. lia. }
      assert (Z.log2 b < n).
      { destruct (Z.eq_dec b 0) as [->|]; [|apply Z.log2_lt_pow2; lia].
        destruct (Z.eq_dec a 0) as [->|]; [rewrite Z.lxor_0_l in E; lia|].
        assert (0 < n) by (destruct (Z.eq_dec n 0) as [->|]; [simpl in Ha; lia|lia]).
        simpl. lia. }
      lia.
Qed.

(** ** The CRC stays a 16-bit value and never leaves the table *)

Lemma _CRC_TABLE_range : Forall (fun t => 0 <= t < 65536) _CRC_TABLE.
Proof.
  unfold _CRC_TABLE. repeat (constructor; [lia|]). constructor.
Qed.

Lemma list_index_table (i : Z) :
  0 <= i < 256 -> exists t, list_index _CRC_TABLE i = Ok t /\ 0 <= t < 65536.
Proof.
  intros Hi. unfold list_index.
  change (Z.of_nat (List.length _CRC_TABLE)) with 256.
  destruct (i <? 0) eqn:E; [apply Z.ltb_lt in E; lia|].
  replace ((0 <=? i) && (i <? 256)) with true
    by (symmetry; apply andb_true_iff; split; [apply Z.leb_le|apply Z.ltb_lt]; lia).
  destruct (nth_error _CRC_TABLE (Z.to_nat i)) as [t|] eqn:En.
  - exists t. split; [reflexivity|].
    apply nth_error_In in En.
    exact (proj1 (Forall_forall _ _) _CRC_TABLE_range t En).
  - apply nth_error_None in En.
    change (List.length _CRC_TABLE) with 256%nat in En. lia.
Qed.

Lemma shiftr8_range (a : Z) : 0 <= a < 65536 -> 0 <= Z.shiftr a 8 < 256.
Proof.
  intros Ha. rewrite Z.shiftr_div_pow2 by lia. change (2 ^ 8) with 256.
  split; [apply Z.div_pos; lia | apply Z.div_lt_upper_bound; lia].
Qed.

Lemma land255_range (a : Z) : 0 <= a -> 0 <= Z.land a 255 < 256.
Proof.
  intros Ha. change 255 with (Z.ones 8). rewrite Z.land_ones by lia.
  change (2 ^ 8) with 256. apply Z.mod_pos_bound. lia.
Qed.

Lemma low_byte_shifted_range (a : Z) :
  0 <= a -> 0 <= Z.shiftl (Z.land a 255) 8 < 65536.
Proof.
  intros Ha. pose proof (land255_range a Ha).
  rewrite Z.shiftl_mul_pow2 by lia. change (2 ^ 8) with 256. lia.
Qed.

Lemma crc_step_range (accu : Z) (b : byte) :
  0 <= accu < 65536 ->
  exists a, crc_step accu b = Ok a /\ 0 <= a < 65536.
Proof.
  intros Ha. unfold crc_step.
  destruct (list_index_table (Z.lxor (Z.shiftr accu 8) (byte_val b)))
    as (t & Ht & Hr).
  { apply (lxor_range 8); [lia| |]; change (2 ^ 8) with 256.
    - apply shiftr8_range, Ha.
    - apply byte_val_range. }
  rewrite Ht. cbn [rbind]. eexists. split; [reflexivity|].
  apply (lxor_range 16); [lia| |]; change (2 ^ 16) with 65536.
  - exact Hr.
  - apply low_byte_shifted_range. lia.
Qed.

Lemma crc_loop_range (block : list byte) : forall accu,
  0 <= accu < 65536 ->
  exists c, crc_loop accu block = Ok c /\ 0 <= c < 65536.
Proof.
  induction block as [|b rest IH]; intros accu Ha; cbn [crc_loop].
  - exists accu. split; [reflexivity|exact Ha].
  - destruct (crc_step_range accu b Ha) as (a & Hs & Hr).
    rewrite Hs. cbn [rbind]. apply IH, Hr.
Qed.

Lemma _calculate_crc_range (block : list byte) :
  exists c, _calculate_crc block = Ok c /\ 0 <= c < 65536.
Proof. apply crc_loop_range. lia. Qed.

Lemma crc_loop_app (b1 b2 : list byte) : forall accu,
  crc_loop accu (b1 ++ b2) = (a <- crc_loop accu b1 ;; crc_loop a b2).
Proof.
  induction b1 as [|b rest IH]; intros accu; cbn [crc_loop app rbind].
  - reflexivity.
  - destruct (crc_step accu b) as [a|e]; cbn [rbind]; [apply IH|reflexivity].
Qed.

(** Feeding a 16-bit accumulator its own two bytes, high byte first, clears it. *)
Lemma crc_loop_own_bytes (c : Z) :
  0 <= c < 65536 ->
  crc_loop c [byte_of_Z (Z.shiftr c 8); byte_of_Z (Z.land c 0xff)] = Ok 0.
Proof.
  intros Hc. cbn [crc_loop]. unfold crc_step.
  rewrite byte_val_of_Z by (apply shiftr8_range, Hc).
  rewrite Z.lxor_nilpotent.
  change (list_index _CRC_TABLE 0) with (Ok 0). cbn [rbind].
  rewrite Z.lxor_0_l.
  rewrite byte_val_of_Z by (apply land255_range; lia).
  pose proof (land255_range c (proj1 Hc)) as Hl.
  set (lo := Z.land c 255) in *.
  rewrite Z.shiftr_shiftl_l by lia. change (8 - 8) with 0. rewrite Z.shiftl_0_r.
  rewrite Z.lxor_nilpotent.
  change (list_index _CRC_TABLE 0) with (Ok 0). cbn [rbind].
  rewrite Z.lxor_0_l.
  replace (Z.land (Z.shiftl lo 8) 255) with 0; [reflexivity|].
  change 255 with (Z.ones 8). rewrite Z.land_ones by lia.
  rewrite Z.shiftl_mul_pow2 by lia. symmetry. apply Z.mod_mul. lia.
Qed.

(** C1. For every byte sequence [B], the CRC [c] of [B] is computed without
    error, [struct.pack('>H', c)] yields its two bytes most significant first,
    and the CRC of [B] followed by those two bytes is 0. *)
Theorem crc_round_trip (B : list byte) :
  exists c tail,
    _calculate_crc B = Ok c /\
    struct_pack_BE_H c = Ok tail /\
    _calculate_crc (B ++ tail) = Ok 0.
Proof.
  destruct (_calculate_crc_range B) as (c & Hc & Hr).
  exists c, [byte_of_Z (Z.shiftr c 8); byte_of_Z (Z.land c 0xff)].
  split; [exact Hc|]. split.
  - unfold struct_pack_BE_H.
    replace ((0 <=? c) && (c <=? 65535)) with true; [reflexivity|].
    symmetry. apply andb_true_iff. split; apply Z.leb_le; lia.
  - unfold _calculate_crc in *. rewrite crc_loop_app, Hc. cbn [rbind].
    apply crc_loop_own_bytes, Hr.
Qed.

(** ** The packed date *)

(** The range checks of [_decode_date] and [_decode_time] never fire: the
    middle term of each chain is [0 & x] or [1 & x], at most 1, and is
    compared with a bound of at least 12. *)
Lemma chain_lt_and_gt_0 (a c d : Z) : 0 <= d -> chain_lt_and_gt a 0 c d = false.
Proof.
  intros Hd. unfold chain_lt_and_gt. rewrite Z.land_0_l.
  apply andb_false_iff. right. rewrite Z.gtb_ltb. apply Z.ltb_ge. exact Hd.
Qed.

Lemma chain_lt_and_gt_1 (a c d : Z) : 1 <= d -> chain_lt_and_gt a 1 c d = false.
Proof.
  intros Hd. unfold chain_lt_and_gt.
  apply andb_false_iff. right.
  rewrite Z.land_comm. change 1 with (Z.ones 1) at 1.
  rewrite Z.land_ones by lia. change (2 ^ 1) with 2.
  pose proof (Z.mod_pos_bound c 2 ltac:(lia)).
  rewrite Z.gtb_ltb. apply Z.ltb_ge. lia.
Qed.

Lemma _decode_date_unchecked (i : Z) :
  _decode_date i =
  (dt <- date_new (Z.shiftr (Z.land i 0xfe00) 9 + 2000)
                  (Z.shiftr (Z.land i 0x1e0) 5) (Z.land i 0x1f) ;;
   Ok (Some dt)).
Proof.
  unfold _decode_date. cbv zeta.
  rewrite chain_lt_and_gt_0, !chain_lt_and_gt_1 by lia. reflexivity.
Qed.

Lemma _decode_time_unchecked (i : Z) :
  _decode_time i =
  (tm <- time_new (i / 100) (i - i / 100 * 100) 0 0 ;; Ok (Some tm)).
Proof.
  unfold _decode_time. cbv zeta.
  rewrite !chain_lt_and_gt_0 by lia. reflexivity.
Qed.

Lemma packed_date_fields (yy m d : Z) :
  0 <= yy < 128 -> 0 <= m < 16 -> 0 <= d < 32 ->
  let i := d + m * 32 + yy * 512 in
  Z.shiftr (Z.land i 0xfe00) 9 = yy /\
  Z.shiftr (Z.land i 0x1e0) 5 = m /\
  Z.land i 0x1f = d.
Proof.
  intros Hy Hm Hd i. repeat split.
  - rewrite Z.shiftr_land. change (Z.shiftr 0xfe00 9) with (Z.ones 7).
    rewrite Z.land_ones, Z.shiftr_div_pow2 by lia.
    change (2 ^ 9) with 512. change (2 ^ 7) with 128.
    replace (i / 512) with yy; [apply Z.mod_small; lia|].
    unfold i. apply (Z.div_unique _ _ _ (d + m * 32)); lia.
  - rewrite Z.shiftr_land. change (Z.shiftr 0x1e0 5) with (Z.ones 4).
    rewrite Z.land_ones, Z.shiftr_div_pow2 by lia.
    change (2 ^ 5) with 32. change (2 ^ 4) with 16.
    replace (i / 32) with (m + yy * 16).
    + rewrite Z.mod_add by lia. apply Z.mod_small; lia.
    + unfold i. apply (Z.div_unique _ _ _ d); lia.
  - change 0x1f with (Z.ones 5). rewrite Z.land_ones by lia.
    change (2 ^ 5) with 32. unfold i.
    replace (d + m * 32 + yy * 512) with (d + (m + yy * 16) * 32) by lia.
    rewrite Z.mod_add by lia. apply Z.mod_small; lia.
Qed.

Lemma date_new_inv (y m d : Z) (dt : date) :
  date_new y m d = Ok dt ->
  dt = mk_date y m d /\ 1 <= y <= 9999 /\ 1 <= m <= 12 /\
  1 <= d <= days_in_month y m.
Proof.
  unfold date_new.
  destruct ((1 <=? y) && (y <=? 9999) && (1 <=? m) && (m <=? 12)
            && (1 <=? d) && (d <=? days_in_month y m)) eqn:E;
    [|discriminate].
  intros [= <-]. repeat (apply andb_true_iff in E; destruct E as [E ?]).
  repeat match goal with H : (_ <=? _) = true |- _ => apply Z.leb_le in H end.
  repeat split; assumption.
Qed.

Lemma _decode_date_ffff : _decode_date 0xFFFF = Raise ValueError.
Proof. reflexivity. Qed.

(** C4. For every date [dt = date(y, m, d)] with [y] in 2000..2099, [m] in
    1..12 and [d] in 1..31, decoding the packed encoding of [dt] returns [dt],
    whose fields are [(y, m, d)]; the null date encodes to 0; and decoding
    0xFFFF yields no date (the call raises ValueError). *)
Theorem date_codec_round_trip :
  (forall y m d dt,
      2000 <= y <= 2099 -> 1 <= m <= 12 -> 1 <= d <= 31 ->
      date_new y m d = Ok dt ->
      _decode_date (_encode_date dt) = Ok (Some dt) /\
      (year dt, month dt, day dt) = (y, m, d)) /\
  _encode_date _NULL_DATE = 0 /\
  (forall dt, _decode_date 0xFFFF <> Ok (Some dt)).
Proof.
  split; [|split; [reflexivity|rewrite _decode_date_ffff; discriminate]].
  intros y m d dt Hy Hm Hd Hnew.
  pose proof Hnew as Hn.
  apply date_new_inv in Hn. destruct Hn as (-> & _ & _ & Hdim).
  split; [|reflexivity].
  unfold _encode_date, date_eqb. cbn [year month day _NULL_DATE].
  replace (y =? 1) with false by (symmetry; apply Z.eqb_neq; lia).
  cbn [andb].
  rewrite _decode_date_unchecked.
  destruct (packed_date_fields (y - 2000) m d) as (Ey & Em & Ed); [lia..|].
  cbv zeta in Ey, Em, Ed. rewrite Ey, Em, Ed.
  replace (y - 2000 + 2000) with y by lia.
  rewrite Hnew. reflexivity.
Qed.

Lemma date_codec_round_trip_witness :
  _decode_date (_encode_date (mk_date 2024 2 29)) = Ok (Some (mk_date 2024 2 29)) /\
  (year (mk_date 2024 2 29), month (mk_date 2024 2 29), day (mk_date 2024 2 29))
  = (2024, 2, 29).
Proof.
  apply (proj1 date_codec_round_trip 2024 2 29 (mk_date 2024 2 29));
    [lia | lia | lia | reflexivity].
Defined.

(** ** The slot validity predicate *)

(** C2. The range checks of [_is_valid_record] cannot reject anything: on a
    slot whose month field is 13, and on one whose minute is 60, with neither
    word 0xFFFF, the predicate does not answer False; the date or time
    constructor raises ValueError instead.  Such a slot is not skipped: a
    download whose page holds it ends in that ValueError. *)
Theorem _is_valid_record_out_of_range_raises :
  struct_unpack_HH (slice slot_month_13 0 4) = Ok (11681, 0) /\
  struct_unpack_HH (slice slot_minute_60 0 4) = Ok (11329, 60) /\
  _is_valid_record slot_month_13 = Raise ValueError /\
  _is_valid_record slot_minute_60 = Raise ValueError /\
  fst (get_archive_data exp_series default_DavisCommunicator NULL_DATE_TIME
         (mk_port
            (dmpaft_reply x06 x06 [x76; xb4]
               (archive_page
                  [noon_slot; slot_month_13; half_past_noon_slot; blank_slot;
                   blank_slot]))
            []))
  = Raise ValueError.
Proof. repeat split; vm_compute; reflexivity. Qed.

(** The only slots the predicate answers False on are those with a 0xFFFF
    word. *)
Lemma _is_valid_record_false (s : list byte) :
  _is_valid_record s = Ok false <->
  exists d t, struct_unpack_HH (slice s 0 4) = Ok (d, t) /\
              (d = 65535 \/ t = 65535).
Proof.
  unfold _is_valid_record.
  destruct (struct_unpack_HH (slice s 0 4)) as [[d t]|e]; cbn [rbind fst snd].
  - rewrite _decode_date_unchecked, _decode_time_unchecked.
    destruct ((d =? 65535) || (t =? 65535)) eqn:E.
    + split; [intros _|reflexivity]. exists d, t. split; [reflexivity|].
      apply orb_true_iff in E. destruct E as [E|E]; apply Z.eqb_eq in E; auto.
    + apply orb_false_iff in E. destruct E as [Ed Et].
      apply Z.eqb_neq in Ed, Et.
      split.
      * destruct (date_new _ _ _); cbn [rbind]; [|discriminate].
        destruct (time_new _ _ _ _); cbn [rbind]; discriminate.
      * intros (d' & t' & [= <- <-] & [H|H]); contradiction.
  - split; [discriminate|]. intros (d & t & H & _). discriminate.
Qed.

(** ** Running the port monad *)

Lemma bind_ok_inv {A B} (c : io A) (k : A -> io B) (p : port) (b : B) :
  fst (bind c k p) = Ok b ->
  exists a p', c p = (Ok a, p') /\ fst (k a p') = Ok b.
Proof.
  unfold bind. destruct (c p) as [[a|e] p']; cbn [fst].
  - intros H. exists a, p'. split; [reflexivity|exact H].
  - discriminate.
Qed.

Lemma bytes_eqb_neq (a b : list byte) : bytes_eqb a b = false <-> a <> b.
Proof.
  unfold bytes_eqb. destruct (list_eq_dec Byte.byte_eq_dec a b); split;
    congruence.
Qed.

(** ** Wake-up *)

Lemma attempt_reply_next (l : list byte) (k : nat) :
  attempt_reply (skipn 2 l) k = attempt_reply l (S k).
Proof.
  unfold attempt_reply. rewrite skipn_skipn. f_equal. f_equal. lia.
Qed.

Lemma wake_up_loop_step (n : nat) (p : port) :
  wake_up_loop (S n) p =
  if bytes_eqb [x0a; x0d] (firstn 2 (rx p))
  then (Ok true, mk_port (skipn 2 (rx p)) (tx p ++ [x0a]))
  else wake_up_loop n (mk_port (skipn 2 (rx p)) (tx p ++ [x0a])).
Proof.
  cbn [wake_up_loop]. unfold bind, write, read, serial_write, serial_read, ret.
  cbn [rx tx]. destruct (bytes_eqb _ _); reflexivity.
Qed.

Lemma wake_up_loop_success (k : nat) : forall (n : nat) (p : port),
  (k < n)%nat ->
  attempt_reply (rx p) k = [x0a; x0d] ->
  (forall j, (j < k)%nat -> attempt_reply (rx p) j <> [x0a; x0d]) ->
  wake_up_loop n p =
  (Ok true, mk_port (skipn (2 * (k + 1)) (rx p)) (tx p ++ repeat x0a (k + 1))).
Proof.
  induction k as [|k IH]; intros n p Hk Hhit Hmiss;
    (destruct n as [|n]; [lia|]); rewrite wake_up_loop_step.
  - change (attempt_reply (rx p) 0) with (firstn 2 (rx p)) in Hhit.
    rewrite Hhit. reflexivity.
  - assert (H0 : bytes_eqb [x0a; x0d] (firstn 2 (rx p)) = false).
    { apply bytes_eqb_neq. intros E. apply (Hmiss 0%nat); [lia|].
      symmetry. exact E. }
    rewrite H0. rewrite (IH n); cbn [rx tx].
    + rewrite skipn_skipn, <- app_assoc. do 2 f_equal. f_equal. lia.
    + lia.
    + rewrite attempt_reply_next. exact Hhit.
    + intros j Hj. rewrite attempt_reply_next. apply Hmiss. lia.
Qed.

Lemma wake_up_loop_exhausted (n : nat) : forall (p : port),
  (forall j, (j < n)%nat -> attempt_reply (rx p) j <> [x0a; x0d]) ->
  wake_up_loop n p =
  (Ok false, mk_port (skipn (2 * n) (rx p)) (tx p ++ repeat x0a n)).
Proof.
  induction n as [|n IH]; intros p Hmiss.
  - cbn. rewrite app_nil_r. destruct p; reflexivity.
  - rewrite wake_up_loop_step.
    assert (H0 : bytes_eqb [x0a; x0d] (firstn 2 (rx p)) = false).
    { apply bytes_eqb_neq. intros E. apply (Hmiss 0%nat); [lia|].
      symmetry. exact E. }
    rewrite H0, IH; cbn [rx tx].
    + rewrite skipn_skipn, <- app_assoc. do 2 f_equal. f_equal. lia.
    + intros j Hj. rewrite attempt_reply_next. apply Hmiss. lia.
Qed.

(** C8, as the code has it.  Each attempt writes one LF and reads two bytes.
    If attempt [k] (counted from 0, [k < retries_attempt]) is the first to read
    LF CR, [wake_up] returns True after [k + 1] attempts; if none of the
    [retries_attempt] attempts reads LF CR, it returns False after
    [retries_attempt] attempts, and raises nothing.  The default number of
    attempts is 3. *)
Theorem wake_up_attempts (self : DavisCommunicator) (p : port) :
  let n := Z.to_nat (_retries_attempt self) in
  (forall k,
      (k < n)%nat ->
      attempt_reply (rx p) k = [x0a; x0d] ->
      (forall j, (j < k)%nat -> attempt_reply (rx p) j <> [x0a; x0d]) ->
      wake_up self p =
      (Ok true,
       mk_port (skipn (2 * (k + 1)) (rx p)) (tx p ++ repeat x0a (k + 1)))) /\
  ((forall j, (j < n)%nat -> attempt_reply (rx p) j <> [x0a; x0d]) ->
   wake_up self p =
   (Ok false, mk_port (skipn (2 * n) (rx p)) (tx p ++ repeat x0a n))) /\
  _retries_attempt default_DavisCommunicator = 3.
Proof.
  intros n. split; [|split; [|reflexivity]].
  - intros k Hk Hhit Hmiss. apply wake_up_loop_success; assumption.
  - intros Hmiss. apply wake_up_loop_exhausted. exact Hmiss.
Qed.

Lemma wake_up_attempts_witness :
  wake_up default_DavisCommunicator (mk_port [x00; x00; x0a; x0d; x55] [])
  = (Ok true, mk_port [x55] [x0a; x0a]) /\
  wake_up default_DavisCommunicator (mk_port (repeat x00 6) [])
  = (Ok false, mk_port [] [x0a; x0a; x0a]).
Proof.
  split.
  - apply (proj1 (wake_up_attempts default_DavisCommunicator
                    (mk_port [x00; x00; x0a; x0d; x55] [])) 1%nat).
    + cbn. lia.
    + reflexivity.
    + intros j Hj. assert (j = 0%nat) as -> by lia. discriminate.
  - apply (proj1 (proj2 (wake_up_attempts default_DavisCommunicator
                           (mk_port (repeat x00 6) [])))).
    intros j Hj. cbn in Hj.
    destruct j as [|[|[|j]]]; [discriminate..|lia].
Defined.

(** C8, as stated, fails: after three attempts that read no LF CR, [wake_up]
    returns False; no error is raised. *)
Lemma wake_up_exhausted_is_not_an_error :
  wake_up default_DavisCommunicator (mk_port (repeat x00 6) [])
  = (Ok false, mk_port [] [x0a; x0a; x0a]) /\
  (forall e,
      fst (wake_up default_DavisCommunicator (mk_port (repeat x00 6) []))
      <> Raise e).
Proof. split; [reflexivity|]. intros e. discriminate. Qed.

(** ** Reading the clock *)

Lemma wait_for_ack_run (a : byte) (rest out : list byte) :
  wait_for_ack (mk_port (a :: rest) out)
  = (Ok (ACK =? to_signed 8 (byte_val a)), mk_port rest out).
Proof.
  unfold wait_for_ack, bind, serial_read, lift, ret.
  cbn [rx tx firstn skipn struct_unpack_1b].
  destruct (ACK =? to_signed 8 (byte_val a)); reflexivity.
Qed.

(** At an acknowledgement point the callers drop the answer of
    [wait_for_ack]: whatever byte is read, the rest runs as it does after
    an ACK. *)
Lemma wait_for_ack_discarded {B} (k : io B) (a : byte) (rest out : list byte) :
  bind wait_for_ack (fun _ => k) (mk_port (a :: rest) out)
  = k (mk_port rest out).
Proof. unfold bind. rewrite wait_for_ack_run. reflexivity. Qed.

Lemma get_time_run (a b0 b1 b2 b3 b4 b5 c0 c1 : byte) (rest out : list byte)
  (crc : Z) :
  _calculate_crc [b0; b1; b2; b3; b4; b5] = Ok crc ->
  get_time (mk_port (a :: [b0; b1; b2; b3; b4; b5] ++ [c0; c1] ++ rest) out)
  = (if negb (byte_val c0 * 256 + byte_val c1 =? crc) then Ok None
     else
       dt <- datetime_new (1900 + byte_val b5) (byte_val b4) (byte_val b3)
               (byte_val b2) (byte_val b1) (byte_val b0) ;;
       Ok (Some dt),
     mk_port rest ((out ++ list_byte_of_string "GETTIME") ++ [x0a])).
Proof.
  intros Hcrc. unfold get_time.
  unfold bind at 1. unfold write at 1. unfold serial_write at 1. cbn [rx tx].
  unfold bind at 1. unfold write at 1. unfold serial_write at 1. cbn [rx tx].
  cbn [app]. rewrite wait_for_ack_discarded.
  unfold bind, read, serial_read, lift, ret. cbn [rx tx firstn skipn app].
  cbn [struct_unpack_from_BE_H]. rewrite Hcrc.
  destruct (negb (byte_val c0 * 256 + byte_val c1 =? crc)); [reflexivity|].
  cbn [struct_unpack_from_6B map nth].
  destruct (datetime_new _ _ _ _ _ _); reflexivity.
Qed.

(** C6. With the CRC of the six payload bytes equal to the two CRC bytes
    received (high byte first), [get_time] returns the date-time built from
    the payload read as second, minute, hour, day, month, year - 1900 (the
    [datetime] constructor is called on these fields; when they are a
    calendar date-time [dt], the result is [dt]).  With a different CRC it
    returns None.  The reply {30, 45, 14, 12, 6, 124} with its CRC gives
    2024-06-12 14:45:30. *)
Theorem get_time_decodes_payload :
  (forall (a b0 b1 b2 b3 b4 b5 c0 c1 : byte) (rest out : list byte) (crc : Z),
      _calculate_crc [b0; b1; b2; b3; b4; b5] = Ok crc ->
      let p := mk_port (a :: [b0; b1; b2; b3; b4; b5] ++ [c0; c1] ++ rest) out in
      let p' := mk_port rest ((out ++ list_byte_of_string "GETTIME") ++ [x0a]) in
      (byte_val c0 * 256 + byte_val c1 = crc ->
       get_time p =
       (dt <- datetime_new (1900 + byte_val b5) (byte_val b4) (byte_val b3)
                (byte_val b2) (byte_val b1) (byte_val b0) ;;
        Ok (Some dt), p') /\
       forall dt,
         datetime_new (1900 + byte_val b5) (byte_val b4) (byte_val b3)
           (byte_val b2) (byte_val b1) (byte_val b0) = Ok dt ->
         fst (get_time p) = Ok (Some dt) /\
         year (dt_date dt) = 1900 + byte_val b5) /\
      (byte_val c0 * 256 + byte_val c1 <> crc -> get_time p = (Ok None, p'))) /\
  fst (get_time (mk_port (gettime_reply x06) []))
  = Ok (Some (mk_datetime (mk_date 2024 6 12) (mk_time 14 45 30 0))).
Proof.
  split; [|reflexivity].
  intros a b0 b1 b2 b3 b4 b5 c0 c1 rest out crc Hcrc p p'.
  subst p p'. rewrite (get_time_run _ _ _ _ _ _ _ _ _ _ _ _ Hcrc).
  split.
  - intros E. apply Z.eqb_eq in E. rewrite E. cbn [negb].
    split; [reflexivity|].
    intros dt Hdt. cbn [fst]. rewrite Hdt. cbn [rbind].
    split; [reflexivity|].
    unfold datetime_new in Hdt.
    destruct (date_new _ _ _) as [dd|] eqn:Ed; cbn [rbind] in Hdt;
      [|discriminate].
    destruct (time_new _ _ _ _); cbn [rbind] in Hdt; [|discriminate].
    injection Hdt as <-. cbn [dt_date].
    apply date_new_inv in Ed. destruct Ed as (-> & _). reflexivity.
  - intros E. apply Z.eqb_neq in E. rewrite E. reflexivity.
Qed.

Lemma get_time_decodes_payload_witness :
  get_time (mk_port (gettime_reply x06 ++ [x55]) [])
  = (Ok (Some (mk_datetime (mk_date 2024 6 12) (mk_time 14 45 30 0))),
     mk_port [x55] (list_byte_of_string "GETTIME" ++ [x0a])) /\
  get_time (mk_port (x06 :: gettime_payload ++ [x00; x00] ++ [x55]) [])
  = (Ok None, mk_port [x55] (list_byte_of_string "GETTIME" ++ [x0a])).
Proof.
  split.
  - apply (proj1 (proj1 (proj1 get_time_decodes_payload
             x06 x1e x2d x0e x0c x06 x7c x71 x6f [x55] [] 0x716f eq_refl)
             eq_refl)).
  - apply (proj2 (proj1 get_time_decodes_payload
             x06 x1e x2d x0e x0c x06 x7c x00 x00 [x55] [] 0x716f eq_refl)).
    discriminate.
Defined.

(** ** Acknowledgement points *)

Lemma bind_write {B} (bs : list byte) (k : unit -> io B) (p : port) :
  bind (write bs) k p = k tt (mk_port (rx p) (tx p ++ bs)).
Proof. reflexivity. Qed.

Lemma bind_lift {A B} (r : result A) (k : A -> io B) (p : port) :
  bind (lift r) k p =
  match r with
  | Ok a => k a p
  | Raise e => (Raise e, p)
  end.
Proof. unfold bind, lift. destruct r; reflexivity. Qed.

Lemma to_signed_8_is_ACK (a : byte) :
  (ACK =? to_signed 8 (byte_val a)) = (byte_val a =? ACK).
Proof.
  pose proof (byte_val_range a) as Hr. unfold to_signed, ACK.
  change (2 ^ (8 - 1)) with 128. change (2 ^ 8) with 256.
  destruct (byte_val a <? 128) eqn:E.
  - apply Z.eqb_sym.
  - apply Z.ltb_ge in E.
    transitivity false; [apply Z.eqb_neq|symmetry; apply Z.eqb_neq]; lia.
Qed.

Lemma get_time_any_ack (a b : byte) (rest out : list byte) :
  get_time (mk_port (a :: rest) out) = get_time (mk_port (b :: rest) out).
Proof.
  unfold get_time. rewrite !bind_write. cbn [rx tx].
  rewrite !wait_for_ack_discarded. reflexivity.
Qed.

Lemma same_outcome_refl {A} (x : result A * port) : same_outcome x x.
Proof. repeat split. Qed.

Lemma same_outcome_raise {A} (e : exn) (p q : port) :
  tx p = tx q -> same_outcome (@Raise A e, p) (Raise e, q).
Proof. intros H. repeat split; [exact H|]. intros a. discriminate. Qed.

(** Runs both sides of a [same_outcome] goal up to the second
    acknowledgement point: the writes, the first acknowledgement, then the
    three steps that may raise (packing, CRC, packing the CRC). *)
Ltac step_may_raise :=
  rewrite !bind_lift;
  match goal with
  | |- context [match ?r with Ok _ => _ | Raise _ => _ end] =>
      destruct r; [|apply same_outcome_raise; reflexivity]
  end.

Ltac run_to_second_ack :=
  rewrite !bind_write; cbn [rx tx];
  rewrite !wait_for_ack_discarded;
  step_may_raise; step_may_raise;
  rewrite !bind_write; cbn [rx tx];
  step_may_raise;
  rewrite !bind_write; cbn [rx tx];
  rewrite !wait_for_ack_discarded;
  apply same_outcome_refl.

Lemma set_time_any_ack (dt : datetime) (a1 a2 b1 b2 : byte)
  (rest out : list byte) :
  same_outcome (set_time dt (mk_port (a1 :: a2 :: rest) out))
               (set_time dt (mk_port (b1 :: b2 :: rest) out)).
Proof. unfold set_time. run_to_second_ack. Qed.

Section ArchiveProofs.

Variable math_exp : float -> result float.

Lemma get_archive_data_any_ack (self : DavisCommunicator) (since : datetime)
  (a1 a2 b1 b2 : byte) (rest out : list byte) :
  same_outcome
    (get_archive_data math_exp self since (mk_port (a1 :: a2 :: rest) out))
    (get_archive_data math_exp self since (mk_port (b1 :: b2 :: rest) out)).
Proof. unfold get_archive_data. run_to_second_ack. Qed.

(** C7, as the code has it.  [wait_for_ack] answers False for NAK, CANCEL
    and every byte other than ACK, but [get_time], [set_time] and
    [get_archive_data] drop that answer: whatever bytes are read at their
    acknowledgement points, each goes on and ends as it does after ACK (the
    same result and the same bytes written). *)
Theorem ack_answer_is_discarded (self : DavisCommunicator)
  (since dt : datetime) (a1 a2 : byte) (rest out : list byte) :
  wait_for_ack (mk_port (a1 :: rest) out)
  = (Ok (byte_val a1 =? ACK), mk_port rest out) /\
  get_time (mk_port (a1 :: rest) out) = get_time (mk_port (x06 :: rest) out) /\
  same_outcome (set_time dt (mk_port (a1 :: a2 :: rest) out))
               (set_time dt (mk_port (x06 :: x06 :: rest) out)) /\
  same_outcome
    (get_archive_data math_exp self since (mk_port (a1 :: a2 :: rest) out))
    (get_archive_data math_exp self since (mk_port (x06 :: x06 :: rest) out)).
Proof.
  split; [|split; [|split]].
  - rewrite wait_for_ack_run, to_signed_8_is_ACK. reflexivity.
  - apply get_time_any_ack.
  - apply set_time_any_ack.
  - apply get_archive_data_any_ack.
Qed.

End ArchiveProofs.

(** C7, as stated, fails: with NAK read where the ACK is expected,
    [get_time] goes on to read the payload and returns the time; with NAK and
    CANCEL at its two acknowledgement points, [get_archive_data] goes on to
    read the page and returns its record. *)
Lemma nak_does_not_stop_the_exchange :
  byte_val x21 = NAK /\ byte_val x18 = CANCEL /\
  get_time (mk_port (gettime_reply x21) [])
  = (Ok (Some (mk_datetime (mk_date 2024 6 12) (mk_time 14 45 30 0))),
     mk_port [] (list_byte_of_string "GETTIME" ++ [x0a])) /\
  exists r,
    get_archive_data exp_series default_DavisCommunicator NULL_DATE_TIME
      (mk_port
         (dmpaft_reply x21 x18 [x76; xb4]
            (archive_page
               [noon_slot; blank_slot; blank_slot; blank_slot; blank_slot]))
         [])
    = (Ok [r], mk_port [] dmpaft_sent) /\
    MeteoRecord_datetime r
    = Ok (mk_datetime (mk_date 2022 2 1) (mk_time 12 0 0 0)).
Proof.
  split; [reflexivity|]. split; [reflexivity|]. split; [reflexivity|].
  eexists. split; vm_compute; reflexivity.
Qed.

(** ** The header CRC of DMPAFT *)

(** C3. The header "1 page, first valid record 0" has CRC 0x76b4; sent with
    the CRC bytes 00 00 instead, [get_archive_data] raises nothing: it
    acknowledges the header, reads the page that follows, acknowledges it and
    returns its record. *)
Theorem get_archive_data_ignores_header_crc :
  _calculate_crc [x01; x00; x00; x00] = Ok 0x76b4 /\
  struct_unpack_from_BE_H [x00; x00] = Ok 0 /\
  exists r,
    get_archive_data exp_series default_DavisCommunicator NULL_DATE_TIME
      (mk_port
         (dmpaft_reply x06 x06 [x00; x00]
            (archive_page
               [noon_slot; blank_slot; blank_slot; blank_slot; blank_slot]))
         [])
    = (Ok [r], mk_port [] dmpaft_sent) /\
    MeteoRecord_datetime r
    = Ok (mk_datetime (mk_date 2022 2 1) (mk_time 12 0 0 0)).
Proof.
  split; [reflexivity|]. split; [reflexivity|].
  eexists. split; vm_compute; reflexivity.
Qed.

(** ** The order of the returned records *)

Lemma lex_compare_antisym (a : list Z) : forall b,
  lex_compare b a = CompOpp (lex_compare a b).
Proof.
  induction a as [|x a IH]; intros [|y b]; cbn [lex_compare CompOpp];
    try reflexivity.
  rewrite (Z.compare_antisym x y).
  destruct (x ?= y); cbn [CompOpp]; [apply IH|reflexivity|reflexivity].
Qed.

Lemma datetime_ltb_asym (a b : datetime) :
  datetime_ltb a b = true -> datetime_ltb b a = false.
Proof.
  unfold datetime_ltb, datetime_compare.
  rewrite (lex_compare_antisym (datetime_fields a) (datetime_fields b)).
  destruct (lex_compare _ _); cbn [CompOpp]; congruence.
Qed.

Section SortedByKey.

Context {A : Type}.

Lemma insert_by_key_head (x y : datetime * A) (l : list (datetime * A)) :
  exists z l', insert_by_key x (y :: l) = z :: l' /\ (z = x \/ z = y).
Proof.
  cbn [insert_by_key]. destruct (datetime_ltb (fst y) (fst x)); eauto.
Qed.

Lemma insert_by_key_ordered (x : datetime * A) (l : list (datetime * A)) :
  neighbours_ordered l -> neighbours_ordered (insert_by_key x l).
Proof.
  induction 1 as [|y|y z l Hyz Hl IH].
  - constructor.
  - cbn [insert_by_key]. destruct (datetime_ltb (fst y) (fst x)) eqn:E.
    + constructor; [|constructor]. unfold key_le, datetime_leb.
      rewrite (datetime_ltb_asym _ _ E). reflexivity.
    + constructor; [|constructor]. unfold key_le, datetime_leb.
      rewrite E. reflexivity.
  - change (insert_by_key x (y :: z :: l)) with
      (if datetime_ltb (fst y) (fst x) then y :: insert_by_key x (z :: l)
       else x :: y :: z :: l).
    destruct (datetime_ltb (fst y) (fst x)) eqn:E.
    + destruct (insert_by_key_head x z l) as (w & l' & Hw & Hor).
      rewrite Hw in IH |- *. constructor; [|exact IH].
      destruct Hor as [-> | ->]; [|exact Hyz].
      unfold key_le, datetime_leb. rewrite (datetime_ltb_asym _ _ E).
      reflexivity.
    + constructor; [|constructor; assumption].
      unfold key_le, datetime_leb. rewrite E. reflexivity.
Qed.

Lemma stable_sort_ordered (l : list (datetime * A)) :
  neighbours_ordered (stable_sort l).
Proof.
  induction l as [|x l IH]; cbn [stable_sort fold_right].
  - constructor.
  - apply insert_by_key_ordered, IH.
Qed.

Lemma insert_by_key_Forall (P : datetime * A -> Prop) (x : datetime * A)
  (l : list (datetime * A)) :
  P x -> Forall P l -> Forall P (insert_by_key x l).
Proof.
  intros Hx. induction 1 as [|y l Hy Hl IH]; cbn [insert_by_key].
  - constructor; [exact Hx|constructor].
  - destruct (datetime_ltb (fst y) (fst x)); repeat constructor; assumption.
Qed.

Lemma stable_sort_Forall (P : datetime * A -> Prop) (l : list (datetime * A)) :
  Forall P l -> Forall P (stable_sort l).
Proof.
  induction 1 as [|x l Hx Hl IH]; cbn [stable_sort fold_right].
  - constructor.
  - apply insert_by_key_Forall; assumption.
Qed.

Lemma neighbours_ordered_nth (l : list (datetime * A)) :
  neighbours_ordered l ->
  forall i x y, nth_error l i = Some x -> nth_error l (S i) = Some y ->
                key_le x y.
Proof.
  induction 1 as [|z|z w l Hzw Hl IH]; intros i x y Hx Hy.
  - destruct i; discriminate.
  - destruct i as [|i]; cbn in Hy; [discriminate|destruct i; discriminate].
  - destruct i as [|i].
    + cbn in Hx, Hy. injection Hx as <-. injection Hy as <-. exact Hzw.
    + apply (IH i); assumption.
Qed.

End SortedByKey.

Lemma with_keys_sound (records : list MeteoRecord) :
  forall ks, with_keys records = Ok ks ->
  Forall (fun kr => MeteoRecord_datetime (snd kr) = Ok (fst kr)) ks.
Proof.
  induction records as [|r rest IH]; intros ks H; cbn [with_keys] in H.
  - injection H as <-. constructor.
  - destruct (MeteoRecord_datetime r) as [k|] eqn:Ek; cbn [rbind] in H;
      [|discriminate].
    destruct (with_keys rest) as [ks'|]; cbn [rbind] in H; [|discriminate].
    injection H as <-. constructor; [exact Ek|apply IH; reflexivity].
Qed.

Lemma sort_records_ordered (records recs : list MeteoRecord) :
  sort_records records = Ok recs ->
  forall i r1 r2,
    nth_error recs i = Some r1 -> nth_error recs (S i) = Some r2 ->
    exists t1 t2,
      MeteoRecord_datetime r1 = Ok t1 /\ MeteoRecord_datetime r2 = Ok t2 /\
      datetime_leb t1 t2 = true.
Proof.
  unfold sort_records. intros H i r1 r2 H1 H2.
  destruct (with_keys records) as [ks|] eqn:Ek; cbn [rbind] in H;
    [|discriminate].
  injection H as <-.
  rewrite nth_error_map in H1, H2.
  destruct (nth_error (stable_sort ks) i) as [[t1 r1']|] eqn:E1;
    cbn in H1; [|discriminate].
  destruct (nth_error (stable_sort ks) (S i)) as [[t2 r2']|] eqn:E2;
    cbn in H2; [|discriminate].
  injection H1 as <-. injection H2 as <-.
  pose proof (stable_sort_Forall _ _ (with_keys_sound _ _ Ek)) as Hall.
  rewrite Forall_forall in Hall.
  exists t1, t2. split; [|split].
  - apply (Hall (t1, r1')). eapply nth_error_In, E1.
  - apply (Hall (t2, r2')). eapply nth_error_In, E2.
  - exact (neighbours_ordered_nth _ (stable_sort_ordered ks) i _ _ E1 E2).
Qed.

Section ArchiveOrder.

Variable math_exp : float -> result float.

Lemma get_archive_data_sorts (self : DavisCommunicator) (since : datetime)
  (p : port) (recs : list MeteoRecord) :
  fst (get_archive_data math_exp self since p) = Ok recs ->
  exists records, sort_records records = Ok recs.
Proof.
  unfold get_archive_data. intros H.
  repeat (apply bind_ok_inv in H; destruct H as (? & ? & _ & H); cbv zeta in H).
  unfold lift in H. cbn [fst] in H. eauto.
Qed.

(** C5, as the code has it.  The records returned by [get_archive_data] are
    in non-decreasing order of timestamp: of two consecutive records the
    first is not later than the second.  (They may carry the same
    timestamp.) *)
Theorem get_archive_data_sorted (self : DavisCommunicator) (since : datetime)
  (p : port) (recs : list MeteoRecord) :
  fst (get_archive_data math_exp self since p) = Ok recs ->
  forall i r1 r2,
    nth_error recs i = Some r1 -> nth_error recs (S i) = Some r2 ->
    exists t1 t2,
      MeteoRecord_datetime r1 = Ok t1 /\ MeteoRecord_datetime r2 = Ok t2 /\
      datetime_leb t1 t2 = true.
Proof.
  intros H. apply get_archive_data_sorts in H. destruct H as (records & H).
  exact (sort_records_ordered records recs H).
Qed.

End ArchiveOrder.

Lemma get_archive_data_sorted_witness :
  exists t1 t2,
    MeteoRecord_datetime (bare_record (mk_date 2022 2 1) (mk_time 12 0 0 0))
    = Ok t1 /\
    MeteoRecord_datetime (bare_record (mk_date 2022 2 1) (mk_time 12 30 0 0))
    = Ok t2 /\
    datetime_leb t1 t2 = true.
Proof.
  apply (get_archive_data_sorted exp_series default_DavisCommunicator
           NULL_DATE_TIME repeated_stamp_port
           [bare_record (mk_date 2022 2 1) (mk_time 12 0 0 0);
            bare_record (mk_date 2022 2 1) (mk_time 12 0 0 0);
            bare_record (mk_date 2022 2 1) (mk_time 12 30 0 0)]
           ltac:(vm_compute; reflexivity) 1%nat);
    reflexivity.
Defined.

(** C5, as stated, fails: two slots of a page stamped 2022-02-01 12:00 are
    both returned, one after the other, and the first timestamp is not
    earlier than the second. *)
Lemma equal_timestamps_are_both_returned :
  exists r1 r2 r3 t,
    fst (get_archive_data exp_series default_DavisCommunicator NULL_DATE_TIME
           repeated_stamp_port) = Ok [r1; r2; r3] /\
    MeteoRecord_datetime r1 = Ok t /\ MeteoRecord_datetime r2 = Ok t /\
    datetime_ltb t t = false.
Proof.
  do 4 eexists. split; [vm_compute; reflexivity|].
  repeat split; vm_compute; reflexivity.
Qed.

(** ** The decoded record *)

Lemma u16le_range (lo hi : byte) : 0 <= u16le lo hi <= 65535.
Proof.
  unfold u16le. pose proof (byte_val_range lo). pose proof (byte_val_range hi).
  lia.
Qed.

Lemma i16le_range (lo hi : byte) : -32768 <= i16le lo hi <= 32767.
Proof.
  unfold i16le, to_signed. pose proof (u16le_range lo hi).
  change (2 ^ (16 - 1)) with 32768. change (2 ^ 16) with 65536.
  destruct (u16le lo hi <? 32768) eqn:E;
    [apply Z.ltb_lt in E|apply Z.ltb_ge in E]; lia.
Qed.

Lemma forall_range_spec (f : Z -> bool) (n : nat) : forall lo,
  forall_range f lo n = true ->
  forall v, lo <= v < lo + Z.of_nat n -> f v = true.
Proof.
  induction n as [|n IH]; intros lo H v Hv; [lia|].
  cbn [forall_range] in H. apply andb_true_iff in H. destruct H as [H0 H1].
  destruct (Z.eq_dec v lo) as [->|Hne]; [exact H0|].
  apply (IH (lo + 1) H1). lia.
Qed.

Lemma tree_range_ext {A} (f g : Z -> A) (depth : nat) : forall lo,
  tree_range f lo depth = tree_range g lo depth ->
  forall v, lo <= v < lo + 2 ^ Z.of_nat depth -> f v = g v.
Proof.
  induction depth as [|d IH]; intros lo H v Hv; cbn [tree_range] in H.
  - change (2 ^ Z.of_nat 0) with 1 in Hv. injection H as H.
    replace v with lo by lia. exact H.
  - injection H as Hl Hr.
    rewrite Nat2Z.inj_succ, Z.pow_succ_r in Hv by lia.
    destruct (Z_lt_le_dec v (lo + 2 ^ Z.of_nat d)) as [Hlt|Hge].
    + apply (IH lo Hl). lia.
    + apply (IH (lo + 2 ^ Z.of_nat d) Hr). lia.
Qed.

Lemma _convert_rain_click (self : DavisCommunicator) (v : Z) :
  _convert_rain self v =
  Some (float_of_Z v
        * rain_click_size (_rain_measurements_unit self) (_rain_collector self))%float.
Proof.
  unfold _convert_rain, rain_click_size.
  destruct (_rain_measurements_unit self), (_rain_collector self); reflexivity.
Qed.

(** Every temperature the record can hold leads to a zero exponent. *)
Lemma _convert_temp_exponent (self : DavisCommunicator) (v : Z) :
  -32768 <= v <= 32767 -> exponent_is_zero (_convert_temp self v) = true.
Proof.
  intros Hv. unfold _convert_temp.
  destruct (_temperature_measurements_unit self);
    cbn [TemperatureMeasurementsUnit.eqb].
  - apply (forall_range_spec
             (fun v => exponent_is_zero (float_of_Z v / 10.0)%float)
             (Z.to_nat 65536) (-32768)); [vm_compute; reflexivity|lia].
  - apply (forall_range_spec
             (fun v => exponent_is_zero
                         (5.0 / 9.0 * (float_of_Z v / 10.0 - 32))%float)
             (Z.to_nat 65536) (-32768)); [vm_compute; reflexivity|lia].
Qed.

(** Every pressure the record can hold is a number, and multiplying it by
    1.0 changes nothing. *)
Lemma _convert_air_pressure_times_one (self : DavisCommunicator) (v : Z) :
  0 <= v <= 65535 ->
  PrimFloat.is_nan (_convert_air_pressure self v) = false /\
  (_convert_air_pressure self v * 1)%float = _convert_air_pressure self v.
Proof.
  intros Hv. unfold _convert_air_pressure.
  destruct (_air_pressure_measurements_unit self);
    cbn [AirPressureMeasurementsUnit.eqb]; split.
  - apply negb_true_iff.
    apply (forall_range_spec
             (fun v => negb (PrimFloat.is_nan (float_of_Z v / 1000.0)%float))
             (Z.to_nat 65536) 0); [vm_compute; reflexivity|lia].
  - apply (tree_range_ext
             (fun v => (float_of_Z v / 1000.0 * 1)%float)
             (fun v => (float_of_Z v / 1000.0)%float)
             16 0); [vm_compute; reflexivity|cbn; lia].
  - apply negb_true_iff.
    apply (forall_range_spec
             (fun v => negb (PrimFloat.is_nan
                               (float_of_Z v / 1000.0 * 33.86389)%float))
             (Z.to_nat 65536) 0); [vm_compute; reflexivity|lia].
  - apply (tree_range_ext
             (fun v => (float_of_Z v / 1000.0 * 33.86389 * 1)%float)
             (fun v => (float_of_Z v / 1000.0 * 33.86389)%float)
             16 0); [vm_compute; reflexivity|cbn; lia].
Qed.

Section RecordProofs.

Variable math_exp : float -> result float.

Lemma _create_archive_data_from_bytes_inv (self : DavisCommunicator)
  (s : list byte) (r : MeteoRecord) :
  _create_archive_data_from_bytes math_exp self s = Ok r ->
  rainfall r = _convert_rain self (u16_at s 10) /\
  high_rain_rate r = _convert_rain self (u16_at s 12) /\
  barometer r =
    (if u16_at s 14 =? 0 then None
     else Some (_convert_air_pressure self (u16_at s 14))) /\
  inside_temp r =
    (if i16_at s 20 =? 32767 then None
     else Some (_convert_temp self (i16_at s 20))) /\
  (forall b t,
      barometer r = Some b -> inside_temp r = Some t ->
      exists p,
        _barometric_formula math_exp t b (0.0 - _altitude self) = Ok p /\
        barometer_sea r = Some p).
Proof.
  unfold _create_archive_data_from_bytes, struct_unpack_archive.
  destruct (Nat.eqb (List.length s) 52); [|discriminate].
  cbn [rbind app map seq nth].
  destruct (_decode_date _) as [[dt|]|]; cbn [rbind]; try discriminate.
  destruct (_decode_time _) as [tm|]; cbn [rbind]; try discriminate.
  cbv zeta.
  destruct (if u8_at s 26 =? 255 then _ else _) as [hi|]; cbn [rbind];
    try discriminate.
  destruct (if u8_at s 27 =? 255 then _ else _) as [prev|]; cbn [rbind];
    try discriminate.
  destruct (u16_at s 14 =? 0).
  { cbn [rbind]. intros [= <-]. cbn. repeat split. intros b t H. discriminate. }
  destruct (i16_at s 20 =? 32767).
  { cbn [rbind]. intros [= <-]. cbn. repeat split. intros b t _ H.
    discriminate. }
  destruct (_barometric_formula _ _ _ _) as [p|] eqn:Ep; cbn [rbind];
    try discriminate.
  intros [= <-]. cbn. repeat split.
  intros b t [= <-] [= <-]. exists p. split; [exact Ep|reflexivity].
Qed.

(** C9. In every record decoded from a slot, [rainfall] and
    [high_rain_rate] are present: each is the raw click count of the slot
    (the 16-bit words at offsets 10 and 12, 0 included) times the click size
    of the configured unit and collector.  No other measurement is always
    present: the slot [noon_slot] decodes to a record in which the fourteen
    others are all absent. *)
Theorem rain_fields_always_present (self : DavisCommunicator) :
  (forall s r,
      _create_archive_data_from_bytes math_exp self s = Ok r ->
      rainfall r =
        Some (float_of_Z (u16_at s 10)
              * rain_click_size (_rain_measurements_unit self)
                  (_rain_collector self))%float /\
      high_rain_rate r =
        Some (float_of_Z (u16_at s 12)
              * rain_click_size (_rain_measurements_unit self)
                  (_rain_collector self))%float) /\
  (exists r,
      _create_archive_data_from_bytes math_exp self noon_slot = Ok r /\
      out_temp r = None /\ hi_out_temp r = None /\ low_out_temp r = None /\
      barometer r = None /\ solar_radiation r = None /\
      no_wind_samples r = None /\ inside_temp r = None /\
      inside_humidity r = None /\ outside_humidity r = None /\
      avg_wind_speed r = None /\ high_wind_speed r = None /\
      direction_hi_wind r = None /\ direction_prev_wind r = None /\
      barometer_sea r = None).
Proof.
  split.
  - intros s r H.
    apply _create_archive_data_from_bytes_inv in H.
    destruct H as (Hr & Hh & _).
    rewrite Hr, Hh, !_convert_rain_click. split; reflexivity.
  - eexists. split; [vm_compute; reflexivity|].
    repeat split.
Qed.

(** ** Sea-level pressure at altitude 0 *)

Hypothesis math_exp_zero :
  forall x, PrimFloat.is_zero x = true -> math_exp x = Ok 1%float.

Lemma _barometric_formula_level (self : DavisCommunicator) (vt vb : Z) :
  -32768 <= vt <= 32767 -> 0 <= vb <= 65535 ->
  _barometric_formula math_exp (_convert_temp self vt)
    (_convert_air_pressure self vb) (0.0 - 0)
  = Ok (_convert_air_pressure self vb).
Proof.
  intros Ht Hb.
  pose proof (_convert_temp_exponent self vt Ht) as Hexp.
  destruct (_convert_air_pressure_times_one self vb Hb) as (Hnan & Hone).
  unfold exponent_is_zero in Hexp.
  apply andb_true_iff in Hexp. destruct Hexp as [Hexp Hq].
  apply andb_true_iff in Hexp. destruct Hexp as [Htn Hden].
  apply negb_true_iff in Htn, Hden.
  unfold _barometric_formula. rewrite Htn, Hnan.
  change (PrimFloat.is_nan (0.0 - 0)) with false. cbn [orb].
  unfold float_truediv. rewrite Hden. cbn [rbind].
  rewrite (math_exp_zero _ Hq). cbn [rbind]. rewrite Hone. reflexivity.
Qed.

(** C10. With the station altitude 0, a decoded record that has both
    [barometer] and [inside_temp] has [barometer_sea] equal to [barometer]:
    the exponent handed to [math.exp] is a zero, [math.exp] answers 1.0 there,
    and the product with 1.0 is the pressure itself. *)
Theorem barometer_sea_at_altitude_0 (self : DavisCommunicator) (s : list byte)
  (r : MeteoRecord) (b t : float) :
  _altitude self = 0%float ->
  _create_archive_data_from_bytes math_exp self s = Ok r ->
  barometer r = Some b ->
  inside_temp r = Some t ->
  barometer_sea r = Some b.
Proof.
  intros Halt H Hb Ht.
  apply _create_archive_data_from_bytes_inv in H.
  destruct H as (_ & _ & Eb & Et & Hsea).
  destruct (Hsea b t Hb Ht) as (p & Hp & ->). f_equal.
  rewrite Hb in Eb. rewrite Ht in Et.
  destruct (u16_at s 14 =? 0); [discriminate|].
  destruct (i16_at s 20 =? 32767); [discriminate|].
  injection Eb as ->. injection Et as ->.
  rewrite Halt, _barometric_formula_level in Hp.
  - injection Hp as <-. reflexivity.
  - apply i16le_range.
  - apply u16le_range.
Qed.

End RecordProofs.

Lemma rain_fields_always_present_witness :
  exists r,
    _create_archive_data_from_bytes exp_series default_DavisCommunicator
      full_slot = Ok r /\
    rainfall r = Some (3 * 0.2)%float /\
    high_rain_rate r = Some (12 * 0.2)%float.
Proof.
  eexists. split; [vm_compute; reflexivity|].
  apply (proj1 (rain_fields_always_present exp_series
                  default_DavisCommunicator) full_slot).
  vm_compute. reflexivity.
Defined.

Lemma exp_series_at_zero (x : float) :
  PrimFloat.is_zero x = true -> exp_series x = Ok 1%float.
Proof. intros H. unfold exp_series. rewrite H. reflexivity. Qed.

Lemma barometer_sea_at_altitude_0_witness :
  exists r b,
    _create_archive_data_from_bytes exp_series default_DavisCommunicator
      full_slot = Ok r /\
    barometer r = Some b /\ barometer_sea r = Some b.
Proof.
  eexists. eexists. split; [vm_compute; reflexivity|].
  split; [reflexivity|].
  eapply (barometer_sea_at_altitude_0 exp_series exp_series_at_zero
            default_DavisCommunicator full_slot);
    [reflexivity | vm_compute; reflexivity | reflexivity | reflexivity].
Defined.

(** * Further properties of the code *)

(** ** The packed time, and decoding before encoding *)

Lemma time_new_inv (h mi s us : Z) (tm : time) :
  time_new h mi s us = Ok tm ->
  tm = mk_time h mi s us /\ 0 <= h <= 23 /\ 0 <= mi <= 59 /\
  0 <= s <= 59 /\ 0 <= us <= 999999.
Proof.
  unfold time_new.
  destruct ((0 <=? h) && (h <=? 23) && (0 <=? mi) && (mi <=? 59)
            && (0 <=? s) && (s <=? 59) && (0 <=? us) && (us <=? 999999)) eqn:E;
    [|discriminate].
  intros [= <-]. repeat (apply andb_true_iff in E; destruct E as [E ?]).
  repeat match goal with H : (_ <=? _) = true |- _ => apply Z.leb_le in H end.
  repeat split; assumption.
Qed.

Lemma time_new_ok (h mi s us : Z) :
  0 <= h <= 23 -> 0 <= mi <= 59 -> 0 <= s <= 59 -> 0 <= us <= 999999 ->
  time_new h mi s us = Ok (mk_time h mi s us).
Proof.
  intros Hh Hm Hs Hu. unfold time_new.
  replace ((0 <=? h) && (h <=? 23) && (0 <=? mi) && (mi <=? 59)
           && (0 <=? s) && (s <=? 59) && (0 <=? us) && (us <=? 999999))
    with true; [reflexivity|].
  symmetry. repeat (apply andb_true_iff; split); apply Z.leb_le; lia.
Qed.

Lemma _decode_encode_time (h mi s us : Z) (tm : time) :
  time_new h mi s us = Ok tm ->
  _decode_time (_encode_time tm) = Ok (Some (mk_time h mi 0 0)).
Proof.
  intros H. apply time_new_inv in H. destruct H as (-> & Hh & Hm & _).
  rewrite _decode_time_unchecked. unfold _encode_time. cbn [hour minute].
  replace ((h * 100 + mi) / 100) with h
    by (apply (Z.div_unique _ _ _ mi); lia).
  replace (h * 100 + mi - h * 100) with mi by lia.
  rewrite time_new_ok by lia. reflexivity.
Qed.

(** X1. For every time of day [time(h, mi, s, us)], decoding its packed
    encoding gives [time(h, mi, 0, 0)]: hour and minute come back, seconds
    and microseconds are dropped. *)
Theorem time_codec_round_trip (h mi s us : Z) (tm : time) :
  time_new h mi s us = Ok tm ->
  _decode_time (_encode_time tm) = Ok (Some (mk_time h mi 0 0)).
Proof. apply _decode_encode_time. Qed.

Lemma time_codec_round_trip_witness :
  _decode_time (_encode_time (mk_time 23 59 58 7))
  = Ok (Some (mk_time 23 59 0 0)).
Proof.
  apply (time_codec_round_trip 23 59 58 7 (mk_time 23 59 58 7)). reflexivity.
Defined.

Lemma packed_date_split (w : Z) :
  0 <= w < 65536 ->
  Z.land w 0x1f + Z.shiftr (Z.land w 0x1e0) 5 * 32
  + Z.shiftr (Z.land w 0xfe00) 9 * 512 = w.
Proof.
  intros Hw.
  rewrite !Z.shiftr_land.
  change (Z.shiftr 0xfe00 9) with (Z.ones 7).
  change (Z.shiftr 0x1e0 5) with (Z.ones 4).
  change 0x1f with (Z.ones 5).
  rewrite !Z.land_ones, !Z.shiftr_div_pow2 by lia.
  change (2 ^ 9) with 512. change (2 ^ 7) with 128.
  change (2 ^ 5) with 32. change (2 ^ 4) with 16.
  assert (w / 512 < 128) by (apply Z.div_lt_upper_bound; lia).
  assert (0 <= w / 512) by (apply Z.div_pos; lia).
  rewrite (Z.mod_small (w / 512)) by lia.
  pose proof (Z.div_mod w 32 ltac:(lia)).
  pose proof (Z.div_mod (w / 32) 16 ltac:(lia)).
  replace (w / 512) with (w / 32 / 16) by (rewrite Z.div_div by lia; reflexivity).
  lia.
Qed.

Lemma _encode_decode_date (w : Z) (dt : date) :
  0 <= w < 65536 -> _decode_date w = Ok (Some dt) ->
  _encode_date dt = w /\ 2000 <= year dt <= 2127.
Proof.
  intros Hw H. rewrite _decode_date_unchecked in H.
  destruct (date_new _ _ _) as [dd|] eqn:E; cbn [rbind] in H;
    [|discriminate].
  injection H as ->. apply date_new_inv in E.
  destruct E as (-> & _ & _ & _).
  pose proof (packed_date_split w Hw) as Hs.
  assert (Hy : 0 <= Z.shiftr (Z.land w 0xfe00) 9 < 128).
  { rewrite Z.shiftr_land. change (Z.shiftr 0xfe00 9) with (Z.ones 7).
    rewrite Z.land_ones by lia. apply Z.mod_pos_bound. lia. }
  unfold _encode_date, date_eqb. cbn [year month day _NULL_DATE].
  replace (Z.shiftr (Z.land w 65024) 9 + 2000 =? 1) with false
    by (symmetry; apply Z.eqb_neq; lia).
  cbn [andb]. split; lia.
Qed.

Lemma _encode_decode_time (w : Z) (tm : time) :
  _decode_time w = Ok (Some tm) ->
  _encode_time tm = w /\ second tm = 0 /\ microsecond tm = 0.
Proof.
  intros H. rewrite _decode_time_unchecked in H.
  destruct (time_new _ _ _ _) as [tt|] eqn:E; cbn [rbind] in H;
    [|discriminate].
  injection H as ->. apply time_new_inv in E. destruct E as (-> & _).
  unfold _encode_time. cbn [hour minute second microsecond]. lia.
Qed.

(** X2. Decoding before encoding: whenever a 16-bit word decodes to a date,
    encoding that date gives the word back; whenever an integer decodes to a
    time, encoding that time gives the integer back.  The decoded date lies
    in the years 2000..2127. *)
Theorem decode_then_encode :
  (forall w dt,
      0 <= w < 65536 -> _decode_date w = Ok (Some dt) ->
      _encode_date dt = w /\ 2000 <= year dt <= 2127) /\
  (forall w tm, _decode_time w = Ok (Some tm) -> _encode_time tm = w).
Proof.
  split.
  - apply _encode_decode_date.
  - intros w tm H. apply (_encode_decode_time w tm H).
Qed.

Lemma decode_then_encode_witness :
  (_encode_date (mk_date 2022 2 1) = 11329 /\
   2000 <= year (mk_date 2022 2 1) <= 2127) /\
  _encode_time (mk_time 12 30 0 0) = 1230.
Proof.
  split.
  - apply (proj1 decode_then_encode 11329 (mk_date 2022 2 1));
      [lia|reflexivity].
  - apply (proj2 decode_then_encode 1230 (mk_time 12 30 0 0)). reflexivity.
Defined.

(** ** The validity predicate in full *)

Lemma packed_date_arith (w : Z) :
  0 <= w < 65536 ->
  Z.shiftr (Z.land w 0xfe00) 9 = w / 512 /\
  Z.shiftr (Z.land w 0x1e0) 5 = w / 32 mod 16 /\
  Z.land w 0x1f = w mod 32.
Proof.
  intros Hw. rewrite !Z.shiftr_land.
  change (Z.shiftr 0xfe00 9) with (Z.ones 7).
  change (Z.shiftr 0x1e0 5) with (Z.ones 4).
  change 0x1f with (Z.ones 5).
  rewrite !Z.land_ones, !Z.shiftr_div_pow2 by lia.
  change (2 ^ 9) with 512. change (2 ^ 7) with 128.
  change (2 ^ 5) with 32. change (2 ^ 4) with 16.
  repeat split. apply Z.mod_small.
  split; [apply Z.div_pos; lia | apply Z.div_lt_upper_bound; lia].
Qed.

Lemma _is_valid_record_spec (a b c d : byte) (rest : list byte) :
  _is_valid_record (a :: b :: c :: d :: rest) =
  if (u16le a b =? 65535) || (u16le c d =? 65535) then Ok false
  else
    dt <- _decode_date (u16le a b) ;;
    match dt with
    | None => Ok false
    | Some _ =>
        tm <- _decode_time (u16le c d) ;;
        match tm with
        | None => Ok false
        | Some _ => Ok true
        end
    end.
Proof. reflexivity. Qed.

(** X3. On a slot of at least four bytes, whose first two little-endian
    words are [dw] and [tw], [_is_valid_record] answers False exactly when a
    word is 0xFFFF; otherwise it answers True when year [dw / 512 + 2000],
    month [dw / 32 mod 16], day [dw mod 32] form a calendar date and hour
    [tw / 100], minute [tw mod 100] a time of day, and raises ValueError when
    they do not.  It never answers False for a date or time out of range. *)
Theorem _is_valid_record_outcome (a b c d : byte) (rest : list byte) :
  _is_valid_record (a :: b :: c :: d :: rest) =
  if (u16le a b =? 65535) || (u16le c d =? 65535) then Ok false
  else
    _ <- date_new (u16le a b / 512 + 2000) (u16le a b / 32 mod 16)
           (u16le a b mod 32) ;;
    _ <- time_new (u16le c d / 100) (u16le c d mod 100) 0 0 ;;
    Ok true.
Proof.
  rewrite _is_valid_record_spec.
  destruct ((u16le a b =? 65535) || (u16le c d =? 65535)); [reflexivity|].
  rewrite _decode_date_unchecked, _decode_time_unchecked.
  pose proof (u16le_range a b) as Hd.
  destruct (packed_date_arith (u16le a b)) as (-> & -> & ->); [lia|].
  replace (u16le c d - u16le c d / 100 * 100) with (u16le c d mod 100)
    by (rewrite Z.mod_eq by lia; lia).
  destruct (date_new _ _ _); cbn [rbind]; [|reflexivity].
  destruct (time_new _ _ _ _); reflexivity.
Qed.

(** ** Two bytes, most significant first *)

(** X4. For every integer [i], [_to_reverse_bytes_block i] is a pair of byte
    values, high byte first, whose value is [i mod 65536]. *)
Theorem _to_reverse_bytes_block_value (i : Z) :
  exists hi lo,
    _to_reverse_bytes_block i = [hi; lo] /\
    0 <= hi < 256 /\ 0 <= lo < 256 /\
    hi * 256 + lo = i mod 65536.
Proof.
  unfold _to_reverse_bytes_block. do 2 eexists. split; [reflexivity|].
  change 0xff with (Z.ones 8).
  rewrite !Z.land_ones, Z.shiftr_div_pow2 by lia. change (2 ^ 8) with 256.
  split; [apply Z.mod_pos_bound; lia|].
  split; [apply Z.mod_pos_bound; lia|].
  change 65536 with (256 * 256). rewrite Z.rem_mul_r by lia. lia.
Qed.

Lemma u16le_of_bytes (v : Z) :
  0 <= v < 65536 ->
  u16le (byte_of_Z (Z.land v 0xff)) (byte_of_Z (Z.shiftr v 8)) = v.
Proof.
  intros Hv. unfold u16le.
  rewrite !byte_val_of_Z by (apply shiftr8_range || apply land255_range; lia).
  change 0xff with (Z.ones 8).
  rewrite Z.land_ones, Z.shiftr_div_pow2 by lia. change (2 ^ 8) with 256.
  pose proof (Z.div_mod v 256 ltac:(lia)). lia.
Qed.

Lemma struct_pack_LE_2H_ok (v w : Z) :
  0 <= v < 65536 -> 0 <= w < 65536 ->
  struct_pack_LE_2H v w =
  Ok [byte_of_Z (Z.land v 0xff); byte_of_Z (Z.shiftr v 8);
      byte_of_Z (Z.land w 0xff); byte_of_Z (Z.shiftr w 8)].
Proof.
  intros Hv Hw. unfold struct_pack_LE_2H.
  replace ((0 <=? v) && (v <=? 65535) && (0 <=? w) && (w <=? 65535))
    with true; [reflexivity|].
  symmetry. repeat (apply andb_true_iff; split); apply Z.leb_le; lia.
Qed.

Lemma struct_pack_LE_2H_out_of_range (v w : Z) :
  v < 0 \/ 65535 < v -> struct_pack_LE_2H v w = Raise StructError.
Proof.
  intros Hv. unfold struct_pack_LE_2H.
  replace ((0 <=? v) && (v <=? 65535)) with false; [reflexivity|].
  symmetry. apply andb_false_iff.
  destruct Hv; [left|right]; apply Z.leb_gt; lia.
Qed.

Lemma days_in_month_bound (y m : Z) : days_in_month y m <= 31.
Proof.
  unfold days_in_month.
  destruct (m =? 2); [destruct (is_leap y); lia|].
  destruct ((m =? 4) || (m =? 6) || (m =? 9) || (m =? 11)); lia.
Qed.

Lemma _encode_date_range (y m d : Z) (dd : date) :
  date_new y m d = Ok dd -> 2000 <= y <= 2127 ->
  _encode_date dd = d + m * 32 + (y - 2000) * 512 /\
  0 <= _encode_date dd < 65536.
Proof.
  intros Hd Hy. apply date_new_inv in Hd. destruct Hd as (-> & _ & Hm & Hday).
  pose proof (days_in_month_bound y m).
  unfold _encode_date, date_eqb. cbn [year month day _NULL_DATE].
  replace (y =? 1) with false by (symmetry; apply Z.eqb_neq; lia).
  cbn [andb]. lia.
Qed.

Lemma _decode_encode_date (y m d : Z) (dd : date) :
  date_new y m d = Ok dd -> 2000 <= y <= 2127 ->
  _decode_date (_encode_date dd) = Ok (Some dd).
Proof.
  intros Hd Hy. destruct (_encode_date_range y m d dd Hd Hy) as (-> & _).
  pose proof Hd as Hd'. apply date_new_inv in Hd'.
  destruct Hd' as (_ & _ & Hm & Hday).
  pose proof (days_in_month_bound y m).
  rewrite _decode_date_unchecked.
  destruct (packed_date_fields (y - 2000) m d) as (Ey & Em & Ed); [lia..|].
  cbv zeta in Ey, Em, Ed. rewrite Ey, Em, Ed.
  replace (y - 2000 + 2000) with y by lia.
  rewrite Hd. reflexivity.
Qed.

(** ** The request of a download *)

(** X5. For a date-time whose date lies in the years 2000..2127,
    [_date_time_to_array] gives four bytes: the packed date and the packed
    time, each low byte first.  Read back as two little-endian words and
    decoded, they give the date, the hour and the minute again. *)
Theorem _date_time_to_array_round_trip (y m d h mi s us : Z) (dd : date)
  (tt : time) :
  date_new y m d = Ok dd -> time_new h mi s us = Ok tt ->
  2000 <= y <= 2127 ->
  exists b0 b1 b2 b3,
    _date_time_to_array (mk_datetime dd tt) = Ok [b0; b1; b2; b3] /\
    struct_unpack_from_LE_2H [b0; b1; b2; b3]
    = Ok (_encode_date dd, _encode_time tt) /\
    _decode_date (u16le b0 b1) = Ok (Some dd) /\
    _decode_time (u16le b2 b3) = Ok (Some (mk_time h mi 0 0)).
Proof.
  intros Hd Ht Hy.
  destruct (_encode_date_range y m d dd Hd Hy) as (_ & He).
  pose proof Ht as Ht'. apply time_new_inv in Ht'.
  destruct Ht' as (Ett & Hh & Hmi & _).
  assert (Hte : 0 <= _encode_time tt < 65536).
  { subst tt. unfold _encode_time. cbn [hour minute]. lia. }
  unfold _date_time_to_array. cbn [dt_date dt_time].
  rewrite struct_pack_LE_2H_ok by assumption.
  do 4 eexists. split; [reflexivity|].
  cbn [struct_unpack_from_LE_2H]. rewrite !u16le_of_bytes by assumption.
  split; [reflexivity|]. split.
  - apply (_decode_encode_date y m d dd Hd Hy).
  - apply (_decode_encode_time h mi s us tt Ht).
Qed.

Lemma _date_time_to_array_round_trip_witness :
  exists b0 b1 b2 b3,
    _date_time_to_array
      (mk_datetime (mk_date 2127 12 31) (mk_time 23 59 58 0))
    = Ok [b0; b1; b2; b3] /\
    struct_unpack_from_LE_2H [b0; b1; b2; b3]
    = Ok (_encode_date (mk_date 2127 12 31), _encode_time (mk_time 23 59 58 0)) /\
    _decode_date (u16le b0 b1) = Ok (Some (mk_date 2127 12 31)) /\
    _decode_time (u16le b2 b3) = Ok (Some (mk_time 23 59 0 0)).
Proof.
  apply (_date_time_to_array_round_trip 2127 12 31 23 59 58 0
           (mk_date 2127 12 31) (mk_time 23 59 58 0));
    [reflexivity | reflexivity | lia].
Defined.

(** ** A silent or short-spoken console *)

Lemma wait_for_ack_silent (out : list byte) :
  wait_for_ack (mk_port [] out) = (Raise StructError, mk_port [] out).
Proof. reflexivity. Qed.

Lemma bind_wait_for_ack_silent {B} (k : bool -> io B) (out : list byte) :
  bind wait_for_ack k (mk_port [] out) = (Raise StructError, mk_port [] out).
Proof. unfold bind. rewrite wait_for_ack_silent. reflexivity. Qed.

Section ArchiveRequest.

Variable math_exp : float -> result float.

Lemma get_archive_data_bad_since (self : DavisCommunicator) (since : datetime)
  (p : port) :
  _date_time_to_array since = Raise StructError ->
  fst (get_archive_data math_exp self since p) = Raise StructError /\
  tx (snd (get_archive_data math_exp self since p))
  = tx p ++ list_byte_of_string "DMPAFT" ++ [x0a] /\
  rx (snd (get_archive_data math_exp self since p)) = skipn 1 (rx p).
Proof.
  intros E. destruct p as [l out]. unfold get_archive_data.
  rewrite !bind_write. cbn [rx tx]. rewrite <- app_assoc.
  destruct l as [|a rest].
  - rewrite bind_wait_for_ack_silent. repeat split.
  - rewrite wait_for_ack_discarded, bind_lift, E. repeat split.
Qed.

(** X6. A date-time outside the years 2000..2127, other than the null date
    0001-01-01, cannot be packed: asked for the records after it,
    [get_archive_data] raises struct.error once it has written "DMPAFT" LF
    and read at most one byte; no request frame is sent. *)
Theorem get_archive_data_since_out_of_range (self : DavisCommunicator)
  (y m d : Z) (dd : date) (tt : time) (p : port) :
  date_new y m d = Ok dd ->
  dd <> _NULL_DATE ->
  y < 2000 \/ 2127 < y ->
  fst (get_archive_data math_exp self (mk_datetime dd tt) p)
  = Raise StructError /\
  tx (snd (get_archive_data math_exp self (mk_datetime dd tt) p))
  = tx p ++ list_byte_of_string "DMPAFT" ++ [x0a] /\
  rx (snd (get_archive_data math_exp self (mk_datetime dd tt) p))
  = skipn 1 (rx p).
Proof.
  intros Hd Hnull Hy. apply get_archive_data_bad_since.
  unfold _date_time_to_array. cbn [dt_date dt_time].
  apply struct_pack_LE_2H_out_of_range.
  apply date_new_inv in Hd. destruct Hd as (-> & Hyr & Hm & Hday).
  pose proof (days_in_month_bound y m).
  unfold _encode_date, date_eqb. cbn [year month day _NULL_DATE].
  destruct ((y =? 1) && (m =? 1) && (d =? 1)) eqn:E.
  - exfalso. apply Hnull.
    apply andb_true_iff in E. destruct E as [E E3].
    apply andb_true_iff in E. destruct E as [E1 E2].
    apply Z.eqb_eq in E1, E2, E3. subst. reflexivity.
  - lia.
Qed.

End ArchiveRequest.

Lemma get_archive_data_since_out_of_range_witness :
  fst (get_archive_data exp_series default_DavisCommunicator
         (mk_datetime (mk_date 1999 12 31) (mk_time 23 59 0 0))
         (mk_port [x06; x06] []))
  = Raise StructError /\
  tx (snd (get_archive_data exp_series default_DavisCommunicator
             (mk_datetime (mk_date 1999 12 31) (mk_time 23 59 0 0))
             (mk_port [x06; x06] [])))
  = [] ++ list_byte_of_string "DMPAFT" ++ [x0a] /\
  rx (snd (get_archive_data exp_series default_DavisCommunicator
             (mk_datetime (mk_date 1999 12 31) (mk_time 23 59 0 0))
             (mk_port [x06; x06] [])))
  = skipn 1 [x06; x06].
Proof.
  apply (get_archive_data_since_out_of_range exp_series
           default_DavisCommunicator 1999 12 31 (mk_date 1999 12 31)
           (mk_time 23 59 0 0) (mk_port [x06; x06] []));
    [reflexivity | discriminate | lia].
Defined.

(** ** The station code *)

Lemma to_signed_8_range (v : Z) : 0 <= v < 256 -> -128 <= to_signed 8 v <= 127.
Proof.
  intros Hv. unfold to_signed.
  change (2 ^ (8 - 1)) with 128. change (2 ^ 8) with 256.
  destruct (v <? 128) eqn:E; [apply Z.ltb_lt in E|apply Z.ltb_ge in E]; lia.
Qed.

(** X7. [get_station_code] writes "WRD", the bytes 12 4D and LF, drops the
    byte read at the acknowledgement point whatever it is, and returns the
    next byte read as a signed number: a byte below 0x80 as itself, a byte
    from 0x80 on as its value less 256. *)
Theorem get_station_code_signed (a c : byte) (rest out : list byte) :
  get_station_code (mk_port (a :: c :: rest) out)
  = (Ok (if byte_val c <? 128 then byte_val c else byte_val c - 256),
     mk_port rest (out ++ list_byte_of_string "WRD" ++ [x12; x4d] ++ [x0a])).
Proof.
  unfold get_station_code. rewrite bind_write, bind_lift.
  change (struct_pack_2b 0x12 0x4d) with (@Ok (list byte) [x12; x4d]).
  cbv iota. rewrite !bind_write. cbn [rx tx].
  rewrite wait_for_ack_discarded.
  unfold bind, read, serial_read, lift, ret.
  cbn [rx tx firstn skipn struct_unpack_1b].
  rewrite <- !app_assoc. reflexivity.
Qed.

(** ** The communication test *)

(** X8. [test_comm] never answers True.  Whatever the console sends, the
    exact echo LF CR "TEST" LF CR included, it writes "TEST" LF, takes up to
    eight bytes and returns False: the reply, a [bytes] value, is compared
    with a [str]. *)
Theorem test_comm_never_succeeds (p : port) :
  test_comm p
  = (Ok false,
     mk_port (skipn 8 (rx p)) (tx p ++ list_byte_of_string "TEST" ++ [x0a])) /\
  fst (test_comm (mk_port test_echo [])) = Ok false.
Proof. split; reflexivity. Qed.

(** ** Short replies to GETTIME *)



(** ** Setting the clock *)

Lemma struct_pack_BE_H_ok (c : Z) :
  0 <= c < 65536 ->
  struct_pack_BE_H c = Ok [byte_of_Z (Z.shiftr c 8); byte_of_Z (Z.land c 0xff)].
Proof.
  intros Hc. unfold struct_pack_BE_H.
  replace ((0 <=? c) && (c <=? 65535)) with true; [reflexivity|].
  symmetry. apply andb_true_iff. split; apply Z.leb_le; lia.
Qed.

Lemma be16_of_bytes (c : Z) :
  0 <= c < 65536 ->
  byte_val (byte_of_Z (Z.shiftr c 8)) * 256
  + byte_val (byte_of_Z (Z.land c 0xff)) = c.
Proof.
  intros Hc.
  rewrite !byte_val_of_Z by (apply shiftr8_range || apply land255_range; lia).
  change 0xff with (Z.ones 8).
  rewrite Z.land_ones, Z.shiftr_div_pow2 by lia. change (2 ^ 8) with 256.
  pose proof (Z.div_mod c 256 ltac:(lia)). lia.
Qed.

Lemma with_crc_frame (body : list byte) :
  exists c,
    _calculate_crc body = Ok c /\ 0 <= c < 65536 /\
    with_crc body
    = body ++ [byte_of_Z (Z.shiftr c 8); byte_of_Z (Z.land c 0xff)] /\
    _calculate_crc (with_crc body) = Ok 0.
Proof.
  destruct (_calculate_crc_range body) as (c & Hc & Hr).
  exists c. unfold with_crc. rewrite Hc. repeat split; try lia.
  unfold _calculate_crc in *. rewrite crc_loop_app, Hc. cbn [rbind].
  apply crc_loop_own_bytes, Hr.
Qed.

Lemma datetime_new_inv (y m d h mi s : Z) (dt : datetime) :
  datetime_new y m d h mi s = Ok dt ->
  dt = mk_datetime (mk_date y m d) (mk_time h mi s 0) /\
  1 <= m <= 12 /\ 1 <= d <= 31 /\ 0 <= h <= 23 /\ 0 <= mi <= 59 /\
  0 <= s <= 59.
Proof.
  unfold datetime_new. intros H.
  destruct (date_new y m d) as [dd|] eqn:Ed; cbn [rbind] in H; [|discriminate].
  destruct (time_new h mi s 0) as [tt|] eqn:Et; cbn [rbind] in H;
    [|discriminate].
  injection H as <-.
  apply date_new_inv in Ed. destruct Ed as (-> & _ & Hm & Hd).
  apply time_new_inv in Et. destruct Et as (-> & Hh & Hmi & Hs & _).
  pose proof (days_in_month_bound y m). repeat split; lia.
Qed.

Lemma struct_pack_6B_clock (y m d h mi s : Z) (dt : datetime) :
  datetime_new y m d h mi s = Ok dt -> 1900 <= y <= 2155 ->
  struct_pack_6B
    [second (dt_time dt); minute (dt_time dt); hour (dt_time dt);
     day (dt_date dt); month (dt_date dt); year (dt_date dt) - 1900]
  = Ok (clock_payload dt).
Proof.
  intros H Hy. apply datetime_new_inv in H.
  destruct H as (-> & Hm & Hd & Hh & Hmi & Hs).
  unfold struct_pack_6B, clock_payload.
  cbn [dt_date dt_time year month day hour minute second forallb].
  replace ((0 <=? s) && (s <=? 255) && ((0 <=? mi) && (mi <=? 255)
           && ((0 <=? h) && (h <=? 255) && ((0 <=? d) && (d <=? 255)
           && ((0 <=? m) && (m <=? 255) && ((0 <=? y - 1900)
           && (y - 1900 <=? 255) && true)))))) with true; [reflexivity|].
  symmetry. repeat (apply andb_true_iff; split); try reflexivity;
    apply Z.leb_le; lia.
Qed.

Lemma set_time_run (y m d h mi s : Z) (dt : datetime) (a1 a2 : byte)
  (rest out : list byte) :
  datetime_new y m d h mi s = Ok dt -> 1900 <= y <= 2155 ->
  set_time dt (mk_port (a1 :: a2 :: rest) out)
  = (Ok tt,
     mk_port rest
       (out ++ list_byte_of_string "SETTIME" ++ [x0a]
        ++ with_crc (clock_payload dt))).
Proof.
  intros H Hy. unfold set_time. rewrite !bind_write. cbn [rx tx].
  rewrite wait_for_ack_discarded, bind_lift.
  rewrite (struct_pack_6B_clock y m d h mi s dt H Hy).
  destruct (with_crc_frame (clock_payload dt)) as (c & Hc & Hr & Hw & _).
  rewrite bind_lift, Hc, bind_write, bind_lift. cbn [rx tx].
  rewrite (struct_pack_BE_H_ok c Hr), bind_write. cbn [rx tx].
  rewrite wait_for_ack_discarded. unfold ret.
  rewrite Hw, <- !app_assoc. reflexivity.
Qed.

(** X10. For a date-time of the years 1900..2155, [set_time] reads one byte
    at each of its two acknowledgement points and writes "SETTIME" LF and a
    frame of eight bytes: second, minute, hour, day, month, year - 1900, then
    two CRC bytes.  The CRC of the whole frame is 0. *)
Theorem set_time_frame (y m d h mi s : Z) (dt : datetime) (a1 a2 : byte)
  (rest out : list byte) :
  datetime_new y m d h mi s = Ok dt -> 1900 <= y <= 2155 ->
  exists frame,
    set_time dt (mk_port (a1 :: a2 :: rest) out)
    = (Ok tt,
       mk_port rest (out ++ list_byte_of_string "SETTIME" ++ [x0a] ++ frame)) /\
    List.length frame = 8%nat /\
    map byte_val (firstn 6 frame) = [s; mi; h; d; m; y - 1900] /\
    _calculate_crc frame = Ok 0.
Proof.
  intros H Hy. exists (with_crc (clock_payload dt)).
  split; [apply (set_time_run y m d h mi s); assumption|].
  destruct (with_crc_frame (clock_payload dt)) as (c & _ & _ & Hw & H0).
  split; [rewrite Hw; reflexivity|]. split; [|exact H0].
  rewrite Hw. apply datetime_new_inv in H.
  destruct H as (-> & Hm & Hd & Hh & Hmi & Hs).
  unfold clock_payload.
  cbn [dt_date dt_time year month day hour minute second map app firstn].
  rewrite !byte_val_of_Z by lia. reflexivity.
Qed.

Lemma set_time_frame_witness :
  exists frame,
    set_time (mk_datetime (mk_date 2024 6 12) (mk_time 14 45 30 0))
      (mk_port [x06; x06; x55] [])
    = (Ok tt,
       mk_port [x55] ([] ++ list_byte_of_string "SETTIME" ++ [x0a] ++ frame)) /\
    List.length frame = 8%nat /\
    map byte_val (firstn 6 frame) = [30; 45; 14; 12; 6; 2024 - 1900] /\
    _calculate_crc frame = Ok 0.
Proof.
  apply (set_time_frame 2024 6 12 14 45 30
           (mk_datetime (mk_date 2024 6 12) (mk_time 14 45 30 0))
           x06 x06 [x55] []); [reflexivity | lia].
Defined.

(** X11. For a date-time before 1900 or after 2155 the year does not fit a
    byte: [set_time] raises struct.error once it has written "SETTIME" LF
    and read at most one byte; no frame is sent. *)
Theorem set_time_year_out_of_range (y m d h mi s : Z) (dt : datetime)
  (p : port) :
  datetime_new y m d h mi s = Ok dt -> y < 1900 \/ 2155 < y ->
  fst (set_time dt p) = Raise StructError /\
  tx (snd (set_time dt p)) = tx p ++ list_byte_of_string "SETTIME" ++ [x0a] /\
  rx (snd (set_time dt p)) = skipn 1 (rx p).
Proof.
  intros H Hy. apply datetime_new_inv in H. destruct H as (-> & _).
  destruct p as [l out]. unfold set_time.
  rewrite !bind_write. cbn [rx tx]. rewrite <- app_assoc.
  destruct l as [|a rest].
  - rewrite bind_wait_for_ack_silent. repeat split.
  - rewrite wait_for_ack_discarded, bind_lift.
    replace (struct_pack_6B _) with (@Raise (list byte) StructError);
      [repeat split|].
    unfold struct_pack_6B.
    cbn [dt_date dt_time year month day hour minute second forallb].
    replace ((0 <=? y - 1900) && (y - 1900 <=? 255)) with false.
    + rewrite !andb_false_r. reflexivity.
    + symmetry. apply andb_false_iff.
      destruct Hy; [left|right]; apply Z.leb_gt; lia.
Qed.

Lemma set_time_year_out_of_range_witness :
  fst (set_time (mk_datetime (mk_date 1899 12 31) (mk_time 0 0 0 0))
         (mk_port [x06; x06] []))
  = Raise StructError /\
  tx (snd (set_time (mk_datetime (mk_date 1899 12 31) (mk_time 0 0 0 0))
             (mk_port [x06; x06] [])))
  = [] ++ list_byte_of_string "SETTIME" ++ [x0a] /\
  rx (snd (set_time (mk_datetime (mk_date 1899 12 31) (mk_time 0 0 0 0))
             (mk_port [x06; x06] [])))
  = skipn 1 [x06; x06].
Proof.
  apply (set_time_year_out_of_range 1899 12 31 0 0 0
           (mk_datetime (mk_date 1899 12 31) (mk_time 0 0 0 0))
           (mk_port [x06; x06] [])); [reflexivity | lia].
Defined.

Lemma get_time_reads_clock_frame (y m d h mi s : Z) (dt : datetime) (a : byte)
  (rest out : list byte) :
  datetime_new y m d h mi s = Ok dt -> 1900 <= y <= 2155 ->
  get_time (mk_port (a :: with_crc (clock_payload dt) ++ rest) out)
  = (Ok (Some dt),
     mk_port rest ((out ++ list_byte_of_string "GETTIME") ++ [x0a])).
Proof.
  intros H Hy.
  destruct (with_crc_frame (clock_payload dt)) as (c & Hc & Hr & Hw & _).
  rewrite Hw. pose proof H as H'. apply datetime_new_inv in H'.
  destruct H' as (Edt & Hm & Hd & Hh & Hmi & Hs).
  revert Hc. unfold clock_payload. rewrite Edt.
  cbn [dt_date dt_time year month day hour minute second map].
  intros Hc. rewrite <- app_assoc.
  rewrite (get_time_run _ _ _ _ _ _ _ _ _ _ _ _ Hc).
  rewrite be16_of_bytes, Z.eqb_refl by exact Hr. cbn [negb].
  rewrite !byte_val_of_Z by lia.
  replace (1900 + (y - 1900)) with y by lia.
  rewrite H. rewrite <- Edt. reflexivity.
Qed.

(** X12. The frame [set_time] writes for a date-time of the years
    1900..2155 is one [get_time] accepts: sent back by the console after the
    byte of the acknowledgement point, it makes [get_time] return that
    date-time. *)
Theorem set_time_then_get_time (y m d h mi s : Z) (dt : datetime)
  (a1 a2 a : byte) (rest out rest' out' : list byte) :
  datetime_new y m d h mi s = Ok dt -> 1900 <= y <= 2155 ->
  exists frame,
    set_time dt (mk_port (a1 :: a2 :: rest) out)
    = (Ok tt,
       mk_port rest (out ++ list_byte_of_string "SETTIME" ++ [x0a] ++ frame)) /\
    get_time (mk_port (a :: frame ++ rest') out')
    = (Ok (Some dt),
       mk_port rest' ((out' ++ list_byte_of_string "GETTIME") ++ [x0a])).
Proof.
  intros H Hy. exists (with_crc (clock_payload dt)). split.
  - apply (set_time_run y m d h mi s); assumption.
  - apply (get_time_reads_clock_frame y m d h mi s); assumption.
Qed.

Lemma set_time_then_get_time_witness :
  exists frame,
    set_time (mk_datetime (mk_date 2155 12 31) (mk_time 23 59 59 0))
      (mk_port [x21; x18] [])
    = (Ok tt,
       mk_port [] ([] ++ list_byte_of_string "SETTIME" ++ [x0a] ++ frame)) /\
    get_time (mk_port (x06 :: frame ++ [x55]) [])
    = (Ok (Some (mk_datetime (mk_date 2155 12 31) (mk_time 23 59 59 0))),
       mk_port [x55] (([] ++ list_byte_of_string "GETTIME") ++ [x0a])).
Proof.
  apply (set_time_then_get_time 2155 12 31 23 59 59
           (mk_datetime (mk_date 2155 12 31) (mk_time 23 59 59 0))
           x21 x18 x06 [] [] [x55] []); [reflexivity | lia].
Defined.

(** ** Wind directions *)

Lemma small_Z_cases (v : Z) :
  0 <= v <= 15 -> exists n, (n < 16)%nat /\ v = Z.of_nat n.
Proof. intros H. exists (Z.to_nat v). lia. Qed.

Lemma _convert_wind_dir_in_range (self : DavisCommunicator) (wv : Z) :
  0 <= wv <= 15 ->
  match _wind_dir_measurements_unit self with
  | WindDirMeasurementsUnit.NAMES =>
      exists name,
        nth_error _WIND_DIRECTIONS (Z.to_nat wv) = Some name /\
        _convert_wind_dir self wv = Ok (Some (DirName name))
  | WindDirMeasurementsUnit.DEG =>
      exists x,
        _convert_wind_dir self wv = Ok (Some (DirDeg x)) /\
        pynum_float x = (float_of_Z wv * 22.5)%float
  end.
Proof.
  intros H. destruct (small_Z_cases wv H) as (n & Hn & ->).
  unfold _convert_wind_dir.
  destruct (_wind_dir_measurements_unit self);
    cbn [WindDirMeasurementsUnit.eqb];
    do 16 (destruct n as [|n];
           [eexists; split; vm_compute; reflexivity|]);
    lia.
Qed.

Lemma _convert_wind_dir_out_of_range (self : DavisCommunicator) (wv : Z) :
  wv < 0 \/ 15 < wv -> _convert_wind_dir self wv = Ok None.
Proof.
  intros H. unfold _convert_wind_dir.
  replace ((0 <=? wv) && (wv <=? 15)) with false; [reflexivity|].
  symmetry. apply andb_false_iff.
  destruct H; [left|right]; apply Z.leb_gt; lia.
Qed.

(** X13. [_convert_wind_dir] never raises.  A sector number outside 0..15
    gives None.  A sector number [wv] in 0..15 gives, when names are asked
    for, the name at position [wv] of the sixteen compass names and, when
    degrees are asked for, a number equal to [wv * 22.5] (for sector 6, "SE",
    it is the integer 135). *)
Theorem _convert_wind_dir_sectors (self : DavisCommunicator) (wv : Z) :
  (wv < 0 \/ 15 < wv -> _convert_wind_dir self wv = Ok None) /\
  (0 <= wv <= 15 ->
   match _wind_dir_measurements_unit self with
   | WindDirMeasurementsUnit.NAMES =>
       exists name,
         nth_error _WIND_DIRECTIONS (Z.to_nat wv) = Some name /\
         _convert_wind_dir self wv = Ok (Some (DirName name))
   | WindDirMeasurementsUnit.DEG =>
       exists x,
         _convert_wind_dir self wv = Ok (Some (DirDeg x)) /\
         pynum_float x = (float_of_Z wv * 22.5)%float
   end).
Proof.
  split.
  - apply _convert_wind_dir_out_of_range.
  - apply _convert_wind_dir_in_range.
Qed.

Lemma _convert_wind_dir_sectors_witness :
  _convert_wind_dir default_DavisCommunicator 16 = Ok None /\
  exists name,
    nth_error _WIND_DIRECTIONS (Z.to_nat 6) = Some name /\
    _convert_wind_dir default_DavisCommunicator 6 = Ok (Some (DirName name)).
Proof.
  split.
  - apply (proj1 (_convert_wind_dir_sectors default_DavisCommunicator 16)). lia.
  - apply (proj2 (_convert_wind_dir_sectors default_DavisCommunicator 6)). lia.
Defined.

Lemma _convert_wind_dir_presence (self : DavisCommunicator) (wv : Z) :
  exists o,
    _convert_wind_dir self wv = Ok o /\
    (o = None <-> wv < 0 \/ 15 < wv) /\
    (_wind_dir_measurements_unit self = WindDirMeasurementsUnit.DEG ->
     bearing_or_absent o).
Proof.
  destruct (Z_lt_le_dec wv 0) as [Hlo|Hlo];
    [|destruct (Z_lt_le_dec 15 wv) as [Hhi|Hhi]].
  - exists None. rewrite _convert_wind_dir_out_of_range by lia.
    repeat split; intros; try lia; exact I.
  - exists None. rewrite _convert_wind_dir_out_of_range by lia.
    repeat split; intros; try lia; exact I.
  - pose proof (_convert_wind_dir_in_range self wv ltac:(lia)) as H.
    destruct (_wind_dir_measurements_unit self).
    + destruct H as (x & -> & _). eexists. split; [reflexivity|].
      split; [split; [discriminate|lia]|]. intros _. exact I.
    + destruct H as (name & _ & ->). eexists. split; [reflexivity|].
      split; [split; [discriminate|lia]|]. discriminate.
Qed.

(** ** The decoded record, field by field *)

Lemma u8_at_range (s : list byte) (off : nat) : 0 <= u8_at s off <= 255.
Proof. unfold u8_at. pose proof (byte_val_range (nth off s x00)). lia. Qed.

Section RecordFields.

Variable math_exp : float -> result float.

(** Everything [_create_archive_data_from_bytes] puts in a record. *)
Lemma _create_archive_data_from_bytes_fields (self : DavisCommunicator)
  (s : list byte) (r : MeteoRecord) :
  _create_archive_data_from_bytes math_exp self s = Ok r ->
  exists dt tm hi prev sea,
    List.length s = 52%nat /\
    _decode_date (u16_at s 0) = Ok (Some dt) /\
    _decode_time (u16_at s 2) = Ok (Some tm) /\
    (if u8_at s 26 =? 255 then Ok None else _convert_wind_dir self (u8_at s 26))
    = Ok hi /\
    (if u8_at s 27 =? 255 then Ok None else _convert_wind_dir self (u8_at s 27))
    = Ok prev /\
    (sea <> None <-> u16_at s 14 <> 0 /\ i16_at s 20 <> 32767) /\
    r = {| record_date := Some dt;
           record_time := Some tm;
           out_temp :=
             if i16_at s 4 =? 32767 then None
             else Some (_convert_temp self (i16_at s 4));
           low_out_temp :=
             if i16_at s 8 =? 32767 then None
             else Some (_convert_temp self (i16_at s 8));
           hi_out_temp :=
             if i16_at s 6 =? -32768 then None
             else Some (_convert_temp self (i16_at s 6));
           outside_humidity :=
             if u8_at s 23 =? 255 then None else Some (u8_at s 23);
           barometer :=
             if u16_at s 14 =? 0 then None
             else Some (_convert_air_pressure self (u16_at s 14));
           barometer_sea := sea;
           avg_wind_speed :=
             if u8_at s 24 =? 255 then None
             else Some (_convert_wind_speed self (u8_at s 24));
           direction_prev_wind := prev;
           high_wind_speed :=
             if u8_at s 25 =? 0 then None
             else Some (_convert_wind_speed self (u8_at s 25));
           direction_hi_wind := hi;
           rainfall := _convert_rain self (u16_at s 10);
           high_rain_rate := _convert_rain self (u16_at s 12);
           solar_radiation :=
             if u16_at s 16 =? 32767 then None else Some (u16_at s 16);
           no_wind_samples :=
             if u16_at s 18 =? 0 then None else Some (u16_at s 18);
           inside_temp :=
             if i16_at s 20 =? 32767 then None
             else Some (_convert_temp self (i16_at s 20));
           inside_humidity :=
             if u8_at s 22 =? 255 then None else Some (u8_at s 22) |}.
Proof.
  unfold _create_archive_data_from_bytes, struct_unpack_archive.
  destruct (Nat.eqb (List.length s) 52) eqn:El; [|discriminate].
  apply Nat.eqb_eq in El.
  cbn [rbind app map seq nth].
  destruct (_decode_date (u16_at s 0)) as [[dt|]|] eqn:Ed; cbn [rbind];
    try discriminate.
  pose proof (u16le_range (nth 0 s x00) (nth 1 s x00)) as Hw.
  destruct (_encode_decode_date (u16_at s 0) dt ltac:(unfold u16_at; lia) Ed)
    as (_ & Hy).
  replace (year dt =? 0) with false by (symmetry; apply Z.eqb_neq; lia).
  cbn [andb].
  rewrite _decode_time_unchecked.
  destruct (time_new _ _ _ _) as [tm|] eqn:Et; cbn [rbind]; try discriminate.
  cbv zeta.
  destruct (if u8_at s 26 =? 255 then _ else _) as [hi|]; cbn [rbind];
    try discriminate.
  destruct (if u8_at s 27 =? 255 then _ else _) as [prev|]; cbn [rbind];
    try discriminate.
  destruct (u16_at s 14 =? 0) eqn:Eb.
  { cbn [rbind]. intros [= <-]. exists dt, tm, hi, prev, None.
    apply Z.eqb_eq in Eb. repeat split; tauto. }
  destruct (i16_at s 20 =? 32767) eqn:Ei.
  { cbn [rbind]. intros [= <-]. exists dt, tm, hi, prev, None.
    apply Z.eqb_eq in Ei. repeat split; tauto. }
  destruct (_barometric_formula _ _ _ _) as [p|] eqn:Ep; cbn [rbind];
    try discriminate.
  intros [= <-]. exists dt, tm, hi, prev, (Some p).
  apply Z.eqb_neq in Eb, Ei. repeat split; try discriminate; assumption.
Qed.

(** X14. A decoded record always carries a timestamp: its date and time are
    present, the date lies in the years 2000..2127, second and microsecond
    are 0, and they are the date and time packed in the first two words of
    the slot (encoding them gives those words back). *)
Theorem decoded_record_timestamp (self : DavisCommunicator) (s : list byte)
  (r : MeteoRecord) :
  _create_archive_data_from_bytes math_exp self s = Ok r ->
  exists dd tm,
    record_date r = Some dd /\ record_time r = Some tm /\
    MeteoRecord_datetime r = Ok (mk_datetime dd tm) /\
    2000 <= year dd <= 2127 /\ second tm = 0 /\ microsecond tm = 0 /\
    _encode_date dd = u16_at s 0 /\ _encode_time tm = u16_at s 2.
Proof.
  intros H. apply _create_archive_data_from_bytes_fields in H.
  destruct H as (dt & tm & hi & prev & sea & _ & Ed & Et & _ & _ & _ & ->).
  exists dt, tm. cbn [record_date record_time]. unfold MeteoRecord_datetime.
  cbn [record_date record_time].
  pose proof (u16le_range (nth 0 s x00) (nth 1 s x00)) as Hw.
  destruct (_encode_decode_date (u16_at s 0) dt ltac:(unfold u16_at; lia) Ed)
    as (Hed & Hy).
  destruct (_encode_decode_time (u16_at s 2) tm Et) as (Het & Hs & Hu).
  repeat split; try assumption; lia.
Qed.

(** X15. In a decoded record [barometer_sea] is present exactly when both
    [barometer] and [inside_temp] are. *)
Theorem barometer_sea_presence (self : DavisCommunicator) (s : list byte)
  (r : MeteoRecord) :
  _create_archive_data_from_bytes math_exp self s = Ok r ->
  (barometer_sea r <> None <-> barometer r <> None /\ inside_temp r <> None).
Proof.
  intros H. apply _create_archive_data_from_bytes_fields in H.
  destruct H as (dt & tm & hi & prev & sea & _ & _ & _ & _ & _ & Hsea & ->).
  cbn [barometer_sea barometer inside_temp]. rewrite Hsea.
  destruct (u16_at s 14 =? 0) eqn:Eb;
    [apply Z.eqb_eq in Eb|apply Z.eqb_neq in Eb];
    (destruct (i16_at s 20 =? 32767) eqn:Ei;
     [apply Z.eqb_eq in Ei|apply Z.eqb_neq in Ei]);
    split; intros (H1 & H2); split; congruence.
Qed.

Lemma if_none_iff {A} (b : bool) (x : A) :
  (if b then None else Some x) = None <-> b = true.
Proof. destruct b; split; congruence. Qed.

Lemma wind_dir_absent (self : DavisCommunicator) (v : Z) (o : option wind_dir) :
  0 <= v <= 255 ->
  (if v =? 255 then Ok None else _convert_wind_dir self v) = Ok o ->
  (o = None <-> 15 < v).
Proof.
  intros Hv H. destruct (v =? 255) eqn:E.
  - apply Z.eqb_eq in E. injection H as <-. split; [lia|reflexivity].
  - destruct (_convert_wind_dir_presence self v) as (o' & Ho & Hiff & _).
    rewrite Ho in H. injection H as <-. rewrite Hiff. lia.
Qed.

(** X16. The sentinels of a decoded record.  A measurement is absent exactly
    when its raw field holds its sentinel: 32767 for [out_temp],
    [low_out_temp], [inside_temp] and [solar_radiation], -32768 for
    [hi_out_temp], 0 for [barometer], [no_wind_samples] and
    [high_wind_speed], 255 for the two humidities and [avg_wind_speed]; a
    wind direction is absent exactly when its byte is above 15. *)
Theorem sentinel_fields_absent (self : DavisCommunicator) (s : list byte)
  (r : MeteoRecord) :
  _create_archive_data_from_bytes math_exp self s = Ok r ->
  (out_temp r = None <-> i16_at s 4 = 32767) /\
  (hi_out_temp r = None <-> i16_at s 6 = -32768) /\
  (low_out_temp r = None <-> i16_at s 8 = 32767) /\
  (barometer r = None <-> u16_at s 14 = 0) /\
  (solar_radiation r = None <-> u16_at s 16 = 32767) /\
  (no_wind_samples r = None <-> u16_at s 18 = 0) /\
  (inside_temp r = None <-> i16_at s 20 = 32767) /\
  (inside_humidity r = None <-> u8_at s 22 = 255) /\
  (outside_humidity r = None <-> u8_at s 23 = 255) /\
  (avg_wind_speed r = None <-> u8_at s 24 = 255) /\
  (high_wind_speed r = None <-> u8_at s 25 = 0) /\
  (direction_hi_wind r = None <-> 15 < u8_at s 26) /\
  (direction_prev_wind r = None <-> 15 < u8_at s 27).
Proof.
  intros H. apply _create_archive_data_from_bytes_fields in H.
  destruct H as (dt & tm & hi & prev & sea & _ & _ & _ & Hhi & Hprev & _ & ->).
  cbn [out_temp hi_out_temp low_out_temp barometer solar_radiation
       no_wind_samples inside_temp inside_humidity outside_humidity
       avg_wind_speed high_wind_speed direction_hi_wind direction_prev_wind].
  rewrite !if_none_iff, !Z.eqb_eq.
  repeat (split; [reflexivity|]).
  split.
  - apply (wind_dir_absent self _ _ (u8_at_range s 26) Hhi).
  - apply (wind_dir_absent self _ _ (u8_at_range s 27) Hprev).
Qed.

(** With bearings asked for, the wind directions of a decoded record are
    bearings. *)
Lemma decoded_record_bearings (self : DavisCommunicator) (s : list byte)
  (r : MeteoRecord) :
  _wind_dir_measurements_unit self = WindDirMeasurementsUnit.DEG ->
  _create_archive_data_from_bytes math_exp self s = Ok r ->
  bearing_or_absent (direction_hi_wind r) /\
  bearing_or_absent (direction_prev_wind r).
Proof.
  intros Hu H. apply _create_archive_data_from_bytes_fields in H.
  destruct H as (dt & tm & hi & prev & sea & _ & _ & _ & Hhi & Hprev & _ & ->).
  cbn [direction_hi_wind direction_prev_wind].
  assert (Hb : forall v o,
             (if v =? 255 then Ok None else _convert_wind_dir self v) = Ok o ->
             bearing_or_absent o).
  { intros v o Ho. destruct (v =? 255).
    - injection Ho as <-. exact I.
    - destruct (_convert_wind_dir_presence self v) as (o' & Ho' & _ & Hdeg).
      rewrite Ho' in Ho. injection Ho as <-. apply Hdeg, Hu. }
  split; [apply (Hb _ _ Hhi)|apply (Hb _ _ Hprev)].
Qed.

(** ** Slots that pass the validity predicate *)



End RecordFields.


Lemma decoded_record_timestamp_witness :
  exists r dd tm,
    _create_archive_data_from_bytes exp_series default_DavisCommunicator
      full_slot = Ok r /\
    record_date r = Some dd /\ record_time r = Some tm /\
    MeteoRecord_datetime r = Ok (mk_datetime dd tm) /\
    2000 <= year dd <= 2127 /\ second tm = 0 /\ microsecond tm = 0 /\
    _encode_date dd = u16_at full_slot 0 /\
    _encode_time tm = u16_at full_slot 2.
Proof.
  eexists.
  destruct (decoded_record_timestamp exp_series default_DavisCommunicator
              full_slot _ ltac:(vm_compute; reflexivity)) as (dd & tm & H).
  exists dd, tm. split; [reflexivity|exact H].
Defined.

Lemma barometer_sea_presence_witness :
  exists r,
    _create_archive_data_from_bytes exp_series default_DavisCommunicator
      full_slot = Ok r /\
    (barometer_sea r <> None <-> barometer r <> None /\ inside_temp r <> None).
Proof.
  eexists. split; [vm_compute; reflexivity|].
  apply (barometer_sea_presence exp_series default_DavisCommunicator full_slot).
  vm_compute. reflexivity.
Defined.

Lemma sentinel_fields_absent_witness :
  exists r,
    _create_archive_data_from_bytes exp_series default_DavisCommunicator
      noon_slot = Ok r /\
    (out_temp r = None <-> i16_at noon_slot 4 = 32767) /\
    (hi_out_temp r = None <-> i16_at noon_slot 6 = -32768) /\
    (low_out_temp r = None <-> i16_at noon_slot 8 = 32767) /\
    (barometer r = None <-> u16_at noon_slot 14 = 0) /\
    (solar_radiation r = None <-> u16_at noon_slot 16 = 32767) /\
    (no_wind_samples r = None <-> u16_at noon_slot 18 = 0) /\
    (inside_temp r = None <-> i16_at noon_slot 20 = 32767) /\
    (inside_humidity r = None <-> u8_at noon_slot 22 = 255) /\
    (outside_humidity r = None <-> u8_at noon_slot 23 = 255) /\
    (avg_wind_speed r = None <-> u8_at noon_slot 24 = 255) /\
    (high_wind_speed r = None <-> u8_at noon_slot 25 = 0) /\
    (direction_hi_wind r = None <-> 15 < u8_at noon_slot 26) /\
    (direction_prev_wind r = None <-> 15 < u8_at noon_slot 27).
Proof.
  eexists. split; [vm_compute; reflexivity|].
  apply (sentinel_fields_absent exp_series default_DavisCommunicator noon_slot).
  vm_compute. reflexivity.
Defined.


(** ** The loops of a download *)

Lemma firstn_exact {A} (l1 l2 : list A) (n : nat) :
  List.length l1 = n -> firstn n (l1 ++ l2) = l1.
Proof.
  intros <-. rewrite firstn_app, Nat.sub_diag, firstn_all. cbn [firstn].
  apply app_nil_r.
Qed.

Lemma skipn_exact {A} (l1 l2 : list A) (n : nat) :
  List.length l1 = n -> skipn n (l1 ++ l2) = l2.
Proof.
  intros <-. rewrite skipn_app, Nat.sub_diag, skipn_all. reflexivity.
Qed.

Section ArchiveLoops.

Variable math_exp : float -> result float.
Variable self : DavisCommunicator.
Variable since : datetime.

(** X18. One page of the download.  When the two bytes after the 265-byte
    body are not the CRC of the body, the page is passed over: nothing is
    written (no ACK, no NAK), the records so far are kept and the loop goes on
    with the next page.  When they are, an ACK is written and the five slots
    of the body are processed. *)
Theorem read_pages_step (valid_record : Z) (n : nat) (i : Z)
  (records : list MeteoRecord) (body : list byte) (c0 c1 : byte)
  (rest out : list byte) (crc : Z) :
  List.length body = 265%nat ->
  _calculate_crc body = Ok crc ->
  read_pages math_exp self since valid_record (S n) i records
    (mk_port (body ++ [c0; c1] ++ rest) out)
  = if crc =? byte_val c0 * 256 + byte_val c1 then
      match
        process_slots math_exp self since valid_record i records 0
          (map (fun j => slice body (1 + 52 * j) (1 + 52 * (j + 1))) (seq 0 5))
      with
      | Ok records' =>
          read_pages math_exp self since valid_record n (i + 1) records'
            (mk_port rest (out ++ [x06]))
      | Raise e => (Raise e, mk_port rest (out ++ [x06]))
      end
    else
      read_pages math_exp self since valid_record n (i + 1) records
        (mk_port rest out).
Proof.
  intros Hlen Hcrc. cbn [read_pages].
  unfold bind at 1. unfold read, serial_read. cbn [rx tx].
  assert (Hf : firstn 267 (body ++ [c0; c1] ++ rest) = body ++ [c0; c1]).
  { rewrite app_assoc. apply firstn_exact. rewrite length_app, Hlen.
    reflexivity. }
  assert (Hs : skipn 267 (body ++ [c0; c1] ++ rest) = rest).
  { rewrite app_assoc. apply skipn_exact. rewrite length_app, Hlen.
    reflexivity. }
  rewrite Hf, Hs.
  assert (Hb : slice (body ++ [c0; c1]) 0 265 = body).
  { unfold slice. cbn [skipn Nat.sub]. apply firstn_exact, Hlen. }
  assert (Hc : slice (body ++ [c0; c1]) 265 267 = [c0; c1]).
  { unfold slice. rewrite (skipn_exact _ _ _ Hlen). reflexivity. }
  rewrite Hb, Hc. rewrite bind_lift. cbn [struct_unpack_from_BE_H].
  rewrite bind_lift, Hcrc.
  destruct (crc =? byte_val c0 * 256 + byte_val c1).
  - unfold bind at 1. unfold bind at 1. unfold write_ack at 1.
    rewrite bind_lift.
    change (struct_pack_B ACK) with (@Ok (list byte) [x06]). cbv iota.
    unfold serial_write. cbn [rx tx]. rewrite bind_lift.
    unfold struct_unpack_from_page. rewrite Hlen. cbn [Nat.leb].
    unfold lift.
    destruct (process_slots _ _ _ _ _ _ _ _); reflexivity.
  - unfold bind at 1. unfold ret. reflexivity.
Qed.

(** X19. The slots of page 0 before [valid_record] are never looked at, not
    even by the validity predicate: processing slots numbered [j] and up on
    page 0 leaves the records as they are as long as the slot numbers stay
    below [valid_record].  On every other page [valid_record] plays no
    part. *)
Theorem process_slots_first_valid (valid_record : Z)
  (records : list MeteoRecord) (slots : list (list byte)) :
  (forall j,
      j + Z.of_nat (List.length slots) <= valid_record ->
      process_slots math_exp self since valid_record 0 records j slots
      = Ok records) /\
  (forall i j valid_record',
      i <> 0 ->
      process_slots math_exp self since valid_record i records j slots
      = process_slots math_exp self since valid_record' i records j slots).
Proof.
  split.
  - induction slots as [|slot rest IH]; intros j Hj; cbn [process_slots].
    + reflexivity.
    + cbn [List.length] in Hj. unfold process_slot. cbn [Z.eqb andb].
      replace (j <? valid_record) with true by (symmetry; apply Z.ltb_lt; lia).
      cbn [rbind]. apply IH. lia.
  - intros i j vr' Hi. revert records j.
    induction slots as [|slot rest IH]; intros records j; cbn [process_slots].
    + reflexivity.
    + unfold process_slot.
      replace (i =? 0) with false by (symmetry; apply Z.eqb_neq; exact Hi).
      cbn [andb].
      destruct (_is_valid_record slot) as [[|]|]; cbn [rbind];
        try reflexivity; [|apply IH].
      destruct (_create_archive_data_from_bytes _ _ _) as [r|]; cbn [rbind];
        [|reflexivity].
      destruct (MeteoRecord_datetime r) as [t|]; cbn [rbind]; [|reflexivity].
      destruct (datetime_gtb t since); apply IH.
Qed.

(** *** What holds of every record collected *)

Variable Q : MeteoRecord -> Prop.

Hypothesis Q_decoded :
  forall slot r t,
    _create_archive_data_from_bytes math_exp self slot = Ok r ->
    MeteoRecord_datetime r = Ok t ->
    datetime_gtb t since = true ->
    Q r.

Lemma process_slot_Forall (valid_record i j : Z) (records : list MeteoRecord)
  (slot : list byte) (records' : list MeteoRecord) :
  Forall Q records ->
  process_slot math_exp self since valid_record i records j slot = Ok records' ->
  Forall Q records' /\
  (List.length records' <= S (List.length records))%nat.
Proof.
  intros HQ. unfold process_slot.
  destruct ((i =? 0) && (j <? valid_record)).
  { intros [= <-]. split; [exact HQ|lia]. }
  destruct (_is_valid_record slot) as [[|]|]; cbn [rbind]; try discriminate.
  2:{ intros [= <-]. split; [exact HQ|lia]. }
  destruct (_create_archive_data_from_bytes _ _ _) as [r|] eqn:Er; cbn [rbind];
    [|discriminate].
  destruct (MeteoRecord_datetime r) as [t|] eqn:Et; cbn [rbind];
    [|discriminate].
  destruct (datetime_gtb t since) eqn:Eg; intros [= <-].
  - split.
    + apply Forall_app. split; [exact HQ|].
      constructor; [|constructor]. exact (Q_decoded slot r t Er Et Eg).
    + rewrite length_app. cbn [List.length]. lia.
  - split; [exact HQ|lia].
Qed.

Lemma process_slots_Forall (valid_record i : Z) (slots : list (list byte)) :
  forall j records records',
    Forall Q records ->
    process_slots math_exp self since valid_record i records j slots
    = Ok records' ->
    Forall Q records' /\
    (List.length records' <= List.length records + List.length slots)%nat.
Proof.
  induction slots as [|slot rest IH]; intros j records records' HQ H;
    cbn [process_slots] in H.
  - injection H as <-. split; [exact HQ|cbn; lia].
  - destruct (process_slot _ _ _ _ _ _ _ _) as [r1|] eqn:E1; cbn [rbind] in H;
      [|discriminate].
    destruct (process_slot_Forall _ _ _ _ _ _ HQ E1) as (HQ1 & Hl1).
    destruct (IH _ _ _ HQ1 H) as (HQ2 & Hl2).
    split; [exact HQ2|cbn [List.length]; lia].
Qed.

Lemma struct_unpack_from_page_five (page : list byte) (el : list (list byte)) :
  struct_unpack_from_page page = Ok el -> List.length el = 5%nat.
Proof.
  unfold struct_unpack_from_page.
  destruct (Nat.leb 261 (List.length page)); [|discriminate].
  intros [= <-]. reflexivity.
Qed.

Lemma read_pages_Forall (valid_record : Z) (n : nat) :
  forall i records p recs,
    Forall Q records ->
    fst (read_pages math_exp self since valid_record n i records p) = Ok recs ->
    Forall Q recs /\
    (List.length recs <= List.length records + 5 * n)%nat.
Proof.
  induction n as [|n IH]; intros i records p recs HQ H.
  - cbn in H. injection H as <-. split; [exact HQ|lia].
  - cbn [read_pages] in H.
    apply bind_ok_inv in H. destruct H as (page_data & p1 & _ & H).
    cbv zeta in H.
    apply bind_ok_inv in H. destruct H as (crc & p2 & _ & H).
    apply bind_ok_inv in H. destruct H as (calc & p3 & _ & H).
    apply bind_ok_inv in H. destruct H as (records' & p4 & Hstep & H).
    assert (Hrec : Forall Q records' /\
                   (List.length records' <= List.length records + 5)%nat).
    { destruct (calc =? crc).
      - assert (Hf : fst ((write_ack ;;;
                           el <~ lift (struct_unpack_from_page
                                         (slice page_data 0 265)) ;;
                           lift (process_slots math_exp self since valid_record
                                   i records 0 el)) p3) = Ok records')
          by (rewrite Hstep; reflexivity).
        apply bind_ok_inv in Hf. destruct Hf as (u & q1 & _ & Hf).
        apply bind_ok_inv in Hf. destruct Hf as (el & q2 & Hel & Hf).
        unfold lift in Hel, Hf. cbn [fst] in Hf.
        injection Hel as Hel _.
        destruct (process_slots_Forall _ _ _ _ _ _ HQ Hf) as (HQ' & Hl).
        rewrite (struct_unpack_from_page_five _ _ Hel) in Hl.
        split; assumption.
      - unfold ret in Hstep. injection Hstep as <- _. split; [exact HQ|lia]. }
    destruct Hrec as (HQ' & Hl').
    destruct (IH _ _ _ _ HQ' H) as (HQr & Hlr).
    split; [exact HQr|lia].
Qed.

Lemma with_keys_snd (records : list MeteoRecord) :
  forall ks, with_keys records = Ok ks -> map snd ks = records.
Proof.
  induction records as [|r rest IH]; intros ks H; cbn [with_keys] in H.
  - injection H as <-. reflexivity.
  - destruct (MeteoRecord_datetime r) as [k|]; cbn [rbind] in H;
      [|discriminate].
    destruct (with_keys rest) as [ks'|]; cbn [rbind] in H; [|discriminate].
    injection H as <-. cbn [map snd]. f_equal. apply IH. reflexivity.
Qed.

Lemma insert_by_key_length {A} (x : datetime * A) (l : list (datetime * A)) :
  List.length (insert_by_key x l) = S (List.length l).
Proof.
  induction l as [|y l IH]; cbn [insert_by_key List.length]; [reflexivity|].
  destruct (datetime_ltb (fst y) (fst x)); cbn [List.length]; [rewrite IH|];
    reflexivity.
Qed.

Lemma stable_sort_length {A} (l : list (datetime * A)) :
  List.length (stable_sort l) = List.length l.
Proof.
  induction l as [|x l IH]; cbn [stable_sort fold_right List.length];
    [reflexivity|].
  change (fold_right insert_by_key [] l) with (stable_sort l).
  rewrite insert_by_key_length, IH. reflexivity.
Qed.

Lemma sort_records_Forall (records recs : list MeteoRecord) :
  sort_records records = Ok recs ->
  Forall Q records ->
  Forall Q recs /\ List.length recs = List.length records.
Proof.
  unfold sort_records. intros H HQ.
  destruct (with_keys records) as [ks|] eqn:Ek; cbn [rbind] in H;
    [|discriminate].
  injection H as <-. apply with_keys_snd in Ek. subst records. split.
  - apply Forall_map. apply stable_sort_Forall.
    exact (proj1 (Forall_map _ _ _) HQ).
  - rewrite !length_map. apply stable_sort_length.
Qed.

Lemma get_archive_data_Forall (p : port) (recs : list MeteoRecord) :
  fst (get_archive_data math_exp self since p) = Ok recs ->
  Forall Q recs /\
  exists a1 a2 h0 h1 rest,
    rx p = a1 :: a2 :: h0 :: h1 :: rest /\
    Z.of_nat (List.length recs) <= 5 * u16le h0 h1.
Proof.
  destruct p as [l out]. unfold get_archive_data. intros H.
  rewrite !bind_write in H. cbn [rx tx] in H.
  destruct l as [|a1 l]; [rewrite bind_wait_for_ack_silent in H; discriminate|].
  rewrite wait_for_ack_discarded, bind_lift in H.
  destruct (_date_time_to_array since) as [buf|]; [|discriminate].
  rewrite bind_lift in H.
  destruct (_calculate_crc buf) as [crc|]; [|discriminate].
  rewrite bind_write, bind_lift in H. cbn [rx tx] in H.
  destruct (struct_pack_BE_H crc) as [tail|]; [|discriminate].
  rewrite bind_write in H. cbn [rx tx] in H.
  destruct l as [|a2 l]; [rewrite bind_wait_for_ack_silent in H; discriminate|].
  rewrite wait_for_ack_discarded in H.
  unfold bind at 1 in H. unfold read at 1, serial_read at 1 in H.
  cbn [rx tx] in H.
  unfold bind at 1 in H. unfold read at 1, serial_read at 1 in H.
  cbn [rx tx] in H.
  rewrite bind_lift in H.
  destruct (struct_unpack_from_BE_H _) as [crc_rcv|]; [|discriminate].
  rewrite bind_lift in H.
  destruct l as [|h0 [|h1 [|h2 [|h3 l]]]]; try discriminate.
  cbn [firstn struct_unpack_from_LE_2H fst snd] in H.
  rewrite bind_lift in H.
  destruct (_calculate_crc [h0; h1; h2; h3]) as [calc|]; [|discriminate].
  apply bind_ok_inv in H. destruct H as (u & q1 & _ & H).
  apply bind_ok_inv in H. destruct H as (records & q2 & Hpages & H).
  unfold lift in H. cbn [fst] in H.
  assert (Hp : fst (read_pages math_exp self since (u16le h2 h3)
                      (Z.to_nat (u16le h0 h1)) 0 [] q1) = Ok records)
    by (rewrite Hpages; reflexivity).
  destruct (read_pages_Forall _ _ _ _ _ _ (Forall_nil Q) Hp) as (HQ & Hl).
  destruct (sort_records_Forall _ _ H HQ) as (HQ' & Hlen).
  split; [exact HQ'|].
  exists a1, a2, h0, h1, (h2 :: h3 :: l). split; [reflexivity|].
  pose proof (u16le_range h0 h1). cbn [List.length] in Hl. lia.
Qed.

End ArchiveLoops.

Lemma read_pages_step_witness :
  read_pages exp_series default_DavisCommunicator NULL_DATE_TIME 0 1 0 []
    (mk_port
       ((x00 :: List.concat [noon_slot; blank_slot; blank_slot; blank_slot;
                             blank_slot] ++ repeat xff 4)
        ++ [x00; x00] ++ [x55])
       [])
  = (Ok [], mk_port [x55] []).
Proof.
  rewrite (read_pages_step exp_series default_DavisCommunicator NULL_DATE_TIME
             0 0 0 []
             (x00 :: List.concat [noon_slot; blank_slot; blank_slot; blank_slot;
                                  blank_slot] ++ repeat xff 4)
             x00 x00 [x55] [] 40820);
    vm_compute; reflexivity.
Defined.

Lemma process_slots_first_valid_witness :
  process_slots exp_series default_DavisCommunicator NULL_DATE_TIME 2 0 [] 0
    [slot_month_13; slot_minute_60]
  = Ok [] /\
  process_slots exp_series default_DavisCommunicator NULL_DATE_TIME 2 1 [] 0
    [noon_slot]
  = process_slots exp_series default_DavisCommunicator NULL_DATE_TIME 0 1 [] 0
      [noon_slot].
Proof.
  split.
  - apply (proj1 (process_slots_first_valid exp_series
                    default_DavisCommunicator NULL_DATE_TIME 2 []
                    [slot_month_13; slot_minute_60]) 0).
    cbn. lia.
  - apply (proj2 (process_slots_first_valid exp_series
                    default_DavisCommunicator NULL_DATE_TIME 2 [] [noon_slot])
             1 0 0).
    lia.
Defined.

(** ** What a download returns *)

Section ArchiveResults.

Variable math_exp : float -> result float.

(** X20. Every record [get_archive_data] returns is later than the
    date-time it was asked about: none has a timestamp equal to it or
    before it. *)
Theorem get_archive_data_newer_than_since (self : DavisCommunicator)
  (since : datetime) (p : port) (recs : list MeteoRecord) :
  fst (get_archive_data math_exp self since p) = Ok recs ->
  Forall (newer_than since) recs.
Proof.
  intros H.
  apply (get_archive_data_Forall math_exp self since (newer_than since)) in H.
  - exact (proj1 H).
  - intros slot r t _ Ht Hg. exists t. split; assumption.
Qed.

(** X21. When [get_archive_data] returns, the console has sent at least the
    two bytes of the acknowledgement points and a header, and the number of
    records returned is at most five times [num_pages], the first
    little-endian word of that header. *)
Theorem get_archive_data_count (self : DavisCommunicator) (since : datetime)
  (p : port) (recs : list MeteoRecord) :
  fst (get_archive_data math_exp self since p) = Ok recs ->
  exists a1 a2 h0 h1 rest,
    rx p = a1 :: a2 :: h0 :: h1 :: rest /\
    Z.of_nat (List.length recs) <= 5 * u16le h0 h1.
Proof.
  intros H.
  apply (get_archive_data_Forall math_exp self since (fun _ => True)) in H.
  - exact (proj2 H).
  - intros. exact I.
Qed.

Lemma wake_up_loop_answers (n : nat) : forall p,
  exists b, fst (wake_up_loop n p) = Ok b.
Proof.
  induction n as [|n IH]; intros p.
  - exists false. reflexivity.
  - rewrite wake_up_loop_step.
    destruct (bytes_eqb _ _); [exists true; reflexivity|apply IH].
Qed.

Lemma bind_answers {A B} (c : io A) (k : io B) (p : port) :
  (exists a, fst (c p) = Ok a) ->
  bind c (fun _ => k) p = k (snd (c p)).
Proof.
  intros (a & H). unfold bind. destruct (c p) as [[a'|e] p'];
    [reflexivity|discriminate].
Qed.

Lemma bind_ret {A} (c : io A) (p : port) : bind c (fun x => ret x) p = c p.
Proof. unfold bind, ret. destruct (c p) as [[a|e] p']; reflexivity. Qed.

Lemma test_comm_answers (p : port) : exists b, fst (test_comm p) = Ok b.
Proof. exists false. reflexivity. Qed.

(** X22. The records [_read_archiveRecords] hands to the logger are all
    later than the last stored measurement, and a wind direction, where a
    record has one, is a bearing in degrees, never a name. *)
Theorem _read_archiveRecords_new_bearings (station_altitude : float)
  (lsm : datetime) (p : port) (recs : list MeteoRecord) :
  fst (_read_archiveRecords math_exp station_altitude lsm p) = Ok recs ->
  Forall (fun r =>
            newer_than lsm r /\
            bearing_or_absent (direction_hi_wind r) /\
            bearing_or_absent (direction_prev_wind r)) recs.
Proof.
  unfold _read_archiveRecords. cbv zeta. intros H.
  rewrite bind_answers in H by apply wake_up_loop_answers.
  rewrite bind_answers in H by apply test_comm_answers.
  rewrite bind_ret in H.
  match type of H with
  | fst (get_archive_data _ ?dc _ ?q) = _ =>
      apply (fun HQ =>
               proj1 (get_archive_data_Forall math_exp dc lsm
                        (fun r =>
                           newer_than lsm r /\
                           bearing_or_absent (direction_hi_wind r) /\
                           bearing_or_absent (direction_prev_wind r))
                        HQ q recs H))
  end.
  intros slot r t Hr Ht Hg. split.
  - exists t. split; assumption.
  - refine (decoded_record_bearings math_exp _ slot r _ Hr). reflexivity.
Qed.

End ArchiveResults.

Lemma get_archive_data_newer_than_since_witness :
  Forall (newer_than NULL_DATE_TIME)
    [bare_record (mk_date 2022 2 1) (mk_time 12 0 0 0);
     bare_record (mk_date 2022 2 1) (mk_time 12 0 0 0);
     bare_record (mk_date 2022 2 1) (mk_time 12 30 0 0)].
Proof.
  apply (get_archive_data_newer_than_since exp_series
           default_DavisCommunicator NULL_DATE_TIME repeated_stamp_port).
  vm_compute. reflexivity.
Defined.

Lemma get_archive_data_count_witness :
  exists a1 a2 h0 h1 rest,
    rx repeated_stamp_port = a1 :: a2 :: h0 :: h1 :: rest /\
    Z.of_nat
      (List.length
         [bare_record (mk_date 2022 2 1) (mk_time 12 0 0 0);
          bare_record (mk_date 2022 2 1) (mk_time 12 0 0 0);
          bare_record (mk_date 2022 2 1) (mk_time 12 30 0 0)])
    <= 5 * u16le h0 h1.
Proof.
  apply (get_archive_data_count exp_series default_DavisCommunicator
           NULL_DATE_TIME repeated_stamp_port).
  vm_compute. reflexivity.
Defined.

Lemma _read_archiveRecords_new_bearings_witness :
  exists recs,
    fst (_read_archiveRecords exp_series 0%float NULL_DATE_TIME
           (mk_port
              ([x0a; x0d] ++ test_echo
               ++ dmpaft_reply x06 x06 [x76; xb4]
                    (archive_page
                       [full_slot; blank_slot; blank_slot; blank_slot;
                        blank_slot]))
              []))
    = Ok recs /\
    List.length recs = 1%nat /\
    Forall (fun r =>
              newer_than NULL_DATE_TIME r /\
              bearing_or_absent (direction_hi_wind r) /\
              bearing_or_absent (direction_prev_wind r)) recs.
Proof.
  eexists. split; [vm_compute; reflexivity|]. split; [reflexivity|].
  apply (_read_archiveRecords_new_bearings exp_series 0%float NULL_DATE_TIME
           (mk_port
              ([x0a; x0d] ++ test_echo
               ++ dmpaft_reply x06 x06 [x76; xb4]
                    (archive_page
                       [full_slot; blank_slot; blank_slot; blank_slot;
                        blank_slot]))
              [])).
  vm_compute. reflexivity.
Defined.

(** ** The callers that read and set the clock *)

(** X23. [_process_check_time] does not consult what [wake_up] and
    [test_comm] answer: whether or not the console woke up, [get_time] runs
    on the port as those two leave it, and its outcome is the outcome of the
    whole. *)
Theorem _process_check_time_goes_on (p : port) :
  _process_check_time p
  = get_time (snd (test_comm (snd (wake_up default_DavisCommunicator p)))).
Proof.
  unfold _process_check_time.
  rewrite bind_answers by apply wake_up_loop_answers.
  rewrite bind_answers by apply test_comm_answers.
  apply bind_ret.
Qed.

Lemma wake_up_first_attempt (rest out : list byte) :
  wake_up default_DavisCommunicator (mk_port (x0a :: x0d :: rest) out)
  = (Ok true, mk_port rest (out ++ [x0a])).
Proof. reflexivity. Qed.

Lemma _process_set_time_run (newtime : datetime) (e0 e1 e2 e3 e4 e5 e6 e7 : byte)
  (rest out : list byte) :
  _process_set_time newtime
    (mk_port (x0a :: x0d :: [e0; e1; e2; e3; e4; e5; e6; e7] ++ rest) out)
  = bind (set_time newtime)
      (fun _ =>
         bind get_time
           (fun dt =>
              match dt with
              | None => lift (Raise AttributeError)
              | Some _ => ret tt
              end))
      (mk_port rest ((out ++ [x0a]) ++ list_byte_of_string "TEST" ++ [x0a])).
Proof. reflexivity. Qed.

(** X24. Setting the clock and reading it back.  With a console that wakes
    at the first LF, sends eight bytes after "TEST", one byte at each
    acknowledgement point and, asked for the time, the frame it was just
    sent, [_process_set_time] for a date-time of the years 1900..2155 ends
    without error, having written LF, "TEST" LF, "SETTIME" LF, the frame and
    "GETTIME" LF. *)
Theorem _process_set_time_read_back (y m d h mi s : Z) (dt : datetime)
  (e0 e1 e2 e3 e4 e5 e6 e7 a1 a2 a : byte) (rest out : list byte) :
  datetime_new y m d h mi s = Ok dt -> 1900 <= y <= 2155 ->
  _process_set_time dt
    (mk_port
       (x0a :: x0d :: [e0; e1; e2; e3; e4; e5; e6; e7]
        ++ a1 :: a2 :: a :: with_crc (clock_payload dt) ++ rest)
       out)
  = (Ok tt,
     mk_port rest
       (out ++ [x0a] ++ (list_byte_of_string "TEST" ++ [x0a])
        ++ (list_byte_of_string "SETTIME" ++ [x0a])
        ++ with_crc (clock_payload dt)
        ++ (list_byte_of_string "GETTIME" ++ [x0a]))).
Proof.
  intros H Hy. rewrite _process_set_time_run.
  unfold bind at 1.
  rewrite (set_time_run y m d h mi s dt a1 a2 _ _ H Hy).
  unfold bind at 1.
  rewrite (get_time_reads_clock_frame y m d h mi s dt a rest _ H Hy).
  unfold ret. rewrite <- !app_assoc. reflexivity.
Qed.

Lemma _process_set_time_read_back_witness :
  _process_set_time (mk_datetime (mk_date 2024 6 12) (mk_time 14 45 30 0))
    (mk_port
       (x0a :: x0d :: [x0a; x0d; x54; x45; x53; x54; x0a; x0d]
        ++ x06 :: x06 :: x06
           :: with_crc
                (clock_payload
                   (mk_datetime (mk_date 2024 6 12) (mk_time 14 45 30 0)))
        ++ [])
       [])
  = (Ok tt,
     mk_port []
       ([] ++ [x0a] ++ (list_byte_of_string "TEST" ++ [x0a])
        ++ (list_byte_of_string "SETTIME" ++ [x0a])
        ++ with_crc
             (clock_payload
                (mk_datetime (mk_date 2024 6 12) (mk_time 14 45 30 0)))
        ++ (list_byte_of_string "GETTIME" ++ [x0a]))).
Proof.
  apply (_process_set_time_read_back 2024 6 12 14 45 30
           (mk_datetime (mk_date 2024 6 12) (mk_time 14 45 30 0)));
    [reflexivity | lia].
Defined.

(** X25. A corrupted read-back.  With the same console, but a reply to
    GETTIME whose two CRC bytes are not the CRC of its six payload bytes,
    [_process_set_time] raises AttributeError: [get_time] returns None and
    the caller formats it for the log.  The clock frame has been sent all the
    same. *)
Theorem _process_set_time_bad_read_back (y m d h mi s : Z) (dt : datetime)
  (e0 e1 e2 e3 e4 e5 e6 e7 a1 a2 a b0 b1 b2 b3 b4 b5 c0 c1 : byte)
  (rest out : list byte) (crc : Z) :
  datetime_new y m d h mi s = Ok dt -> 1900 <= y <= 2155 ->
  _calculate_crc [b0; b1; b2; b3; b4; b5] = Ok crc ->
  byte_val c0 * 256 + byte_val c1 <> crc ->
  _process_set_time dt
    (mk_port
       (x0a :: x0d :: [e0; e1; e2; e3; e4; e5; e6; e7]
        ++ a1 :: a2 :: a :: [b0; b1; b2; b3; b4; b5] ++ [c0; c1] ++ rest)
       out)
  = (Raise AttributeError,
     mk_port rest
       (out ++ [x0a] ++ (list_byte_of_string "TEST" ++ [x0a])
        ++ (list_byte_of_string "SETTIME" ++ [x0a])
        ++ with_crc (clock_payload dt)
        ++ (list_byte_of_string "GETTIME" ++ [x0a]))).
Proof.
  intros H Hy Hcrc Hne. rewrite _process_set_time_run.
  unfold bind at 1.
  rewrite (set_time_run y m d h mi s dt a1 a2 _ _ H Hy).
  unfold bind at 1.
  rewrite (get_time_run _ _ _ _ _ _ _ _ _ _ _ _ Hcrc).
  apply Z.eqb_neq in Hne. rewrite Hne. cbn [negb].
  unfold lift. rewrite <- !app_assoc. reflexivity.
Qed.

Lemma _process_set_time_bad_read_back_witness :
  _process_set_time (mk_datetime (mk_date 2024 6 12) (mk_time 14 45 30 0))
    (mk_port
       (x0a :: x0d :: [x0a; x0d; x54; x45; x53; x54; x0a; x0d]
        ++ x06 :: x06 :: x06 :: [x1e; x2d; x0e; x0c; x06; x7c] ++ [x00; x00]
        ++ [])
       [])
  = (Raise AttributeError,
     mk_port []
       ([] ++ [x0a] ++ (list_byte_of_string "TEST" ++ [x0a])
        ++ (list_byte_of_string "SETTIME" ++ [x0a])
        ++ with_crc
             (clock_payload
                (mk_datetime (mk_date 2024 6 12) (mk_time 14 45 30 0)))
        ++ (list_byte_of_string "GETTIME" ++ [x0a]))).
Proof.
  apply (_process_set_time_bad_read_back 2024 6 12 14 45 30
           (mk_datetime (mk_date 2024 6 12) (mk_time 14 45 30 0))
           x0a x0d x54 x45 x53 x54 x0a x0d x06 x06 x06
           x1e x2d x0e x0c x06 x7c x00 x00 [] [] 0x716f);
    [reflexivity | lia | reflexivity | discriminate].
Defined.
